(** * DataScribe: the report pipeline of [predict.py]

    A shallow embedding of the analysis-and-document-assembly pipeline
    ([compute_basic_stats], [detect_categoricals], the ten plot generators
    and [analyze_to_pdf]) together with the properties the specification
    states about it.

    The pandas frame is an ordered list of labelled columns; the PDF sink
    ([PdfPages]) is the list of pages saved so far; Python exceptions are an
    explicit outcome.  Floating-point statistics (mean, std, quantiles,
    correlations) are not computed: the pages record which columns and
    which counts they show.  The pandas calls have the behaviour of pandas
    1.x and 2.x, where text columns have the dtype [object]. *)

From Stdlib Require Import String Ascii ZArith Lia Bool Arith List.
From Stdlib Require Import DecimalString Sorted Permutation.
Import ListNotations.

Open Scope string_scope.
Open Scope list_scope.

(** ** Data model *)

(** The dtypes [pd.read_csv] infers for a column. *)
Inductive Dtype : Type :=
| Int64
| Float64
| Boolean
| Object.

(** A cell.  [VFloat] carries a non-NaN float64 by its bit pattern (sign of
    zero cleared, so that equal numbers have equal patterns); every NaN,
    which is how pandas stores a missing entry in float and object columns,
    is [NaN]. *)
Inductive value : Type :=
| VInt (z : Z)
| VFloat (bits : Z)
| VBool (b : bool)
| VStr (s : string)
| NaN.

Record Series : Type := mkSeries {
  dtype : Dtype;
  values : list value
}.

(** [pd.DataFrame]: the columns in file order, each with its label.
    [pd.read_csv] renames repeated header names, so the labels of a loaded
    frame are pairwise distinct; theorems that rely on it say so with
    [NoDup (columns df)]. *)
Definition DataFrame : Type := list (string * Series).

Definition value_eq_dec (a b : value) : {a = b} + {a <> b}.
Proof.
  decide equality; auto using Z.eq_dec, string_dec, bool_dec.
Defined.

Definition Dtype_eq_dec (a b : Dtype) : {a = b} + {a <> b}.
Proof. decide equality. Defined.

(** ** Frame and series primitives (pandas) *)

(** [df.columns] *)
Definition columns (df : DataFrame) : list string := map fst df.

(** [df.shape] *)
Definition n_rows (df : DataFrame) : nat :=
  match df with
  | [] => 0
  | (_, s) :: _ => length (values s)
  end.

Definition n_cols (df : DataFrame) : nat := length df.

(** [df[col]] as a lookup by label.  [None] is pandas' KeyError. *)
Fixpoint getitem (df : DataFrame) (col : string) : option Series :=
  match df with
  | [] => None
  | (name, s) :: rest =>
      if string_dec name col then Some s else getitem rest col
  end.

Definition empty_series : Series := mkSeries Object [].

(** [df[col]] where [col] was taken from the frame's own labels: the
    KeyError branch cannot be reached there. *)
Definition column (df : DataFrame) (col : string) : Series :=
  match getitem df col with
  | Some s => s
  | None => empty_series
  end.

(** [df[labels]]: the sub-frame of the listed columns, in the listed order. *)
Definition getitems (df : DataFrame) (labels : list string) : DataFrame :=
  map (fun l => (l, column df l)) labels.

(** Membership of a dtype in [np.number]: booleans and objects are not. *)
Definition is_number (d : Dtype) : bool :=
  match d with
  | Int64 | Float64 => true
  | Boolean | Object => false
  end.

Definition is_object (d : Dtype) : bool :=
  match d with
  | Object => true
  | _ => false
  end.

(** [df.select_dtypes(include=[np.number])] and [include=['object']]: the
    matching columns, original order kept. *)
Definition select_dtypes_number (df : DataFrame) : DataFrame :=
  filter (fun c => is_number (dtype (snd c))) df.

Definition select_dtypes_object (df : DataFrame) : DataFrame :=
  filter (fun c => is_object (dtype (snd c))) df.

(** [pd.isna] on a cell *)
Definition isna (v : value) : bool :=
  match v with
  | NaN => true
  | _ => false
  end.

(** [Series.dropna()] *)
Definition dropna (l : list value) : list value :=
  filter (fun v => negb (isna v)) l.

(** [Series.isna().sum()] *)
Definition isna_sum (s : Series) : nat :=
  length (filter isna (values s)).

(** [Series.count()]: the non-missing entries. *)
Definition count_valid (s : Series) : nat :=
  length (dropna (values s)).

(** [pd.unique]: the distinct elements in order of first appearance. *)
Fixpoint unique {A : Type} (dec : forall a b : A, {a = b} + {a <> b})
    (l : list A) : list A :=
  match l with
  | [] => []
  | x :: xs => x :: remove dec x (unique dec xs)
  end.

(** [Series.nunique(dropna=True)] *)
Definition nunique (s : Series) : nat :=
  length (unique value_eq_dec (dropna (values s))).

(** Python's [l[:k]] and pandas' [head(k)]: the first [k] elements, or all
    but the last [-k] when [k] is negative. *)
Definition slice_to {A : Type} (k : Z) (l : list A) : list A :=
  if (0 <=? k)%Z then firstn (Z.to_nat k) l
  else firstn (length l - Z.to_nat (- k)) l.

(** Descending sort on the counts of a labelled series
    ([sort_values(ascending=False)]).  Equal counts keep their relative
    order here; pandas leaves that order to the sort kernel, and nothing
    below depends on it. *)
Fixpoint insert_desc {A : Type} (x : A * nat) (l : list (A * nat))
    : list (A * nat) :=
  match l with
  | [] => [x]
  | y :: t =>
      if (snd y <=? snd x)%nat then x :: y :: t else y :: insert_desc x t
  end.

Definition sort_values_desc {A : Type} (l : list (A * nat)) : list (A * nat) :=
  fold_right insert_desc [] l.

(** [Series.value_counts()]: missing entries dropped, one entry per distinct
    value with its number of occurrences, most frequent first. *)
Definition value_counts (s : Series) : list (value * nat) :=
  let vs := dropna (values s) in
  sort_values_desc
    (map (fun v => (v, count_occ value_eq_dec vs v)) (unique value_eq_dec vs)).

(** ** The column classifier *)

(** The test in the loop body of [detect_categoricals]. *)
Definition is_categorical (max_unique : Z) (s : Series) : bool :=
  if Dtype_eq_dec (dtype s) Object then true
  else (Z.of_nat (nunique s) <=? max_unique)%Z.

(** [detect_categoricals(df, max_unique)]: the loop over [df.columns],
    appending to [cats]. *)
Definition detect_categoricals (df : DataFrame) (max_unique : Z) : list string :=
  fold_left
    (fun cats col =>
       if Dtype_eq_dec (dtype (column df col)) Object then cats ++ [col]
       else if (Z.of_nat (nunique (column df col)) <=? max_unique)%Z
            then cats ++ [col]
            else cats)
    (columns df) [].

(** The [ColumnClassification] of the specification, read off the
    classifier: a column is categorical when [detect_categoricals] lists it
    and numeric otherwise. *)
Inductive Label : Type :=
| Numeric
| Categorical.

Definition classification (df : DataFrame) (max_unique : Z)
    : list (string * Label) :=
  let cats := detect_categoricals df max_unique in
  map (fun col =>
         (col, if in_dec string_dec col cats then Categorical else Numeric))
      (columns df).

(** ** Exceptions *)

(** The exceptions that reach the caller: pandas' [ValueError] with its
    message, and any failure inside a matplotlib drawing call. *)
Inductive exn : Type :=
| ValueError (msg : string)
| BackendError.

Inductive Exc (A : Type) : Type :=
| Ok (a : A)
| Raise (e : exn).

Arguments Ok {A} a.
Arguments Raise {A} e.

(** ** The statistics engine *)

(** One row of [df.describe(include=[np.number]).T].  Of its entries only
    [count] is kept; mean, std, min, the quartiles and max are float
    statistics no property below reads. *)
Record DescRow : Type := mkDescRow {
  desc_label : string;
  desc_count : nat
}.

(** [df.describe(include=[np.number]).T].  pandas refuses a frame without
    columns, and otherwise concatenates one description per selected
    column: with no numeric column there is nothing to concatenate and
    [pd.concat] raises. *)
Definition describe_number (df : DataFrame) : Exc (list DescRow) :=
  match df with
  | [] => Raise (ValueError "Cannot describe a DataFrame without columns")
  | _ =>
      match select_dtypes_number df with
      | [] => Raise (ValueError "No objects to concatenate")
      | data =>
          Ok (map (fun c => mkDescRow (fst c) (count_valid (snd c))) data)
      end
  end.

(** A row of the statistics table: the description plus the [missing]
    entry.  [None] is the NaN that index alignment leaves where the
    assigned series has no entry for the row's label. *)
Record StatRow : Type := mkStatRow {
  row_label : string;
  row_count : nat;
  row_missing : option nat
}.

(** Label lookup in a series indexed by column name. *)
Fixpoint lookup (l : list (string * nat)) (k : string) : option nat :=
  match l with
  | [] => None
  | (k', v) :: rest => if string_dec k' k then Some v else lookup rest k
  end.

(** [compute_basic_stats(df)]:
    [desc["missing"] = df[desc.index].isna().sum()], aligned on the row
    labels. *)
Definition compute_basic_stats (df : DataFrame) : Exc (list StatRow) :=
  match describe_number df with
  | Raise e => Raise e
  | Ok desc =>
      let missing :=
        map (fun c => (fst c, isna_sum (snd c)))
            (getitems df (map desc_label desc)) in
      Ok (map (fun r =>
                 mkStatRow (desc_label r) (desc_count r)
                           (lookup missing (desc_label r)))
              desc)
  end.

(** ** The report document *)

(** The body of a text page.  The summary is kept as the figures it
    reports (rows, columns, numeric columns, object columns, total missing
    values); its optional line of sample means is formatted floats and is
    left out. *)
Inductive TextBody : Type :=
| SummaryText (rows cols numeric object missing_total : nat)
| PlainText (s : string).

(** A page of the PDF, one constructor per kind of figure the pipeline
    saves, with the data the figure is drawn from. *)
Inductive Page : Type :=
| TextPage (title : string) (body : TextBody)
| TablePage (title : string) (rows : list StatRow)
| MissingnessBar (counts : list (string * nat))
| Histogram (col : string) (data : list value) (bins : Z)
| CategoricalBar (col : string) (counts : list (value * nat))
| CorrelationHeatmap (cols : list string)
| Boxplot (col : string) (data : list value)
| ViolinPlot (col : string) (data : list value)
| DensityPlot (col : string) (data : list value)
| ScatterMatrix (cols : list string)
| LineChart (cols : list string)
| PieChart (col : string) (counts : list (value * nat)).

(** The sink [PdfPages]: the pages saved so far, in order. *)
Definition PdfPages : Type := list Page.

(** The position of a chart or table page in the pipeline's sequence of
    stages; text pages open and close the document. *)
Definition stage (p : Page) : nat :=
  match p with
  | TextPage _ _ => 0
  | TablePage _ _ => 1
  | MissingnessBar _ => 2
  | Histogram _ _ _ => 3
  | CategoricalBar _ _ => 4
  | CorrelationHeatmap _ => 5
  | Boxplot _ _ => 6
  | ViolinPlot _ _ => 7
  | DensityPlot _ _ => 8
  | ScatterMatrix _ => 9
  | LineChart _ => 10
  | PieChart _ _ => 11
  end.

(** The columns a page shows. *)
Definition page_columns (p : Page) : list string :=
  match p with
  | TextPage _ _ => []
  | TablePage _ rows => map row_label rows
  | MissingnessBar counts => map fst counts
  | Histogram col _ _ | CategoricalBar col _ | Boxplot col _
  | ViolinPlot col _ | DensityPlot col _ | PieChart col _ => [col]
  | CorrelationHeatmap cols | ScatterMatrix cols | LineChart cols => cols
  end.

(** ** Code that writes to the sink: state and exceptions *)

Definition M (A : Type) : Type := PdfPages -> Exc (A * PdfPages).

Definition ret {A : Type} (a : A) : M A := fun pdf => Ok (a, pdf).

Definition bind {A B : Type} (c : M A) (k : A -> M B) : M B :=
  fun pdf =>
    match c pdf with
    | Ok (a, pdf') => k a pdf'
    | Raise e => Raise e
    end.

Declare Scope pdf_scope.
Delimit Scope pdf_scope with pdf.
Notation "c1 ;; c2" := (bind c1 (fun _ => c2))
  (at level 61, right associativity) : pdf_scope.

(** [for x in l: body(x)] *)
Fixpoint for_each {A : Type} (l : list A) (body : A -> M unit) : M unit :=
  match l with
  | [] => ret tt
  | x :: xs => bind (body x) (fun _ => for_each xs body)
  end.

(** Sample backends for concrete runs: a float printer and a renderer that
    never fails. *)
Definition sample_float_repr (bits : Z) : string := "0.5".

Definition always_renders (p : Page) : bool := true.

(** ** Sample frames *)

(** Three columns: an integer one, a text one and a float one, the last two
    with missing entries. *)
Definition sample_df : DataFrame :=
  [("age", mkSeries Int64 [VInt 30; VInt 41; VInt 30; VInt 25]);
   ("city", mkSeries Object [VStr "Oslo"; NaN; VStr "Rome"; VStr "Oslo"]);
   ("score", mkSeries Float64 [VFloat 1; NaN; NaN; VFloat 2])].

(** A frame whose only column is text. *)
Definition text_only_df : DataFrame :=
  [("city", mkSeries Object [VStr "Oslo"; VStr "Rome"])].

(** What [pd.read_csv] returns for a file that holds only the header line
    [a,b]: two columns without rows, of object dtype. *)
Definition header_only_df : DataFrame :=
  [("a", mkSeries Object []); ("b", mkSeries Object [])].

(** One float column, every entry missing. *)
Definition all_missing_df : DataFrame :=
  [("x", mkSeries Float64 [NaN; NaN])].

(** Five integer columns of zeros and ones. *)
Definition flag : Series := mkSeries Int64 [VInt 0; VInt 1; VInt 1].

Definition five_flags_df : DataFrame :=
  [("a", flag); ("b", flag); ("c", flag); ("d", flag); ("e", flag)].

(** Thirteen float columns, each with more than twenty distinct values. *)
Definition ramp : Series :=
  mkSeries Float64 (map (fun n => VFloat (Z.of_nat n)) (seq 1 21)).

Definition wide_df : DataFrame :=
  map (fun name => (name, ramp))
      ["c01"; "c02"; "c03"; "c04"; "c05"; "c06"; "c07"; "c08"; "c09"; "c10";
       "c11"; "c12"; "c13"].

(** ** The generators and the pipeline *)

Section Pipeline.

(** Python's [str] on a float64 that is not NaN. *)
Variable float_repr : Z -> string.

(** Whether matplotlib draws and saves the figure of a page without
    raising.  Nothing is assumed about it. *)
Variable renders : Page -> bool.

Local Open Scope pdf_scope.
#[local] Set Default Proof Using "Type".

(** [pdf.savefig(fig)], with the drawing calls that built [fig]. *)
Definition savefig (p : Page) : M unit :=
  fun pdf => if renders p then Ok (tt, pdf ++ [p]) else Raise BackendError.

(** Python's [str] on a cell. *)
Definition str (v : value) : string :=
  match v with
  | VInt z => NilZero.string_of_int (Z.to_int z)
  | VFloat bits => float_repr bits
  | VBool true => "True"
  | VBool false => "False"
  | VStr s => s
  | NaN => "nan"
  end.

(** [Series.astype(str)] *)
Definition astype_str (s : Series) : Series :=
  mkSeries Object (map (fun v => VStr (str v)) (values s)).

Definition add_text_page (title : string) (body : TextBody) : M unit :=
  savefig (TextPage title body).

Definition save_stats_table (desc : list StatRow) (title : string) : M unit :=
  match desc with
  | [] => ret tt
  | _ => savefig (TablePage title (slice_to 12 desc))
  end.

Definition plot_missingness (df : DataFrame) : M unit :=
  let missing :=
    sort_values_desc (map (fun c => (fst c, isna_sum (snd c))) df) in
  savefig (MissingnessBar missing).

Definition plot_histograms (df : DataFrame) (bins max_cols : Z) : M unit :=
  let num_cols := slice_to max_cols (columns (select_dtypes_number df)) in
  for_each num_cols (fun col =>
    savefig (Histogram col (dropna (values (column df col))) bins)).

Definition plot_categorical_bars (df : DataFrame) (top_k max_cols : Z)
    : M unit :=
  let cats := slice_to max_cols (detect_categoricals df 20) in
  for_each cats (fun col =>
    let counts :=
      slice_to top_k (value_counts (astype_str (column df col))) in
    savefig (CategoricalBar col counts)).

Definition plot_correlation_heatmap (df : DataFrame) : M unit :=
  let num_df := select_dtypes_number df in
  if (length num_df <? 2)%nat then ret tt
  else savefig (CorrelationHeatmap (columns num_df)).

Definition plot_boxplots (df : DataFrame) (max_cols : Z) : M unit :=
  let num_cols := slice_to max_cols (columns (select_dtypes_number df)) in
  for_each num_cols (fun col =>
    savefig (Boxplot col (dropna (values (column df col))))).

Definition plot_violinplots (df : DataFrame) (max_cols : Z) : M unit :=
  let num_cols := slice_to max_cols (columns (select_dtypes_number df)) in
  for_each num_cols (fun col =>
    savefig (ViolinPlot col (dropna (values (column df col))))).

Definition plot_density_plots (df : DataFrame) (max_cols : Z) : M unit :=
  let num_cols := slice_to max_cols (columns (select_dtypes_number df)) in
  for_each num_cols (fun col =>
    let data := dropna (values (column df col)) in
    match data with
    | [] => ret tt
    | _ => savefig (DensityPlot col data)
    end).

Definition plot_scatter_matrix (df : DataFrame) (max_cols : Z) : M unit :=
  let num_cols := slice_to max_cols (columns (select_dtypes_number df)) in
  if (1 <? length num_cols)%nat then savefig (ScatterMatrix num_cols)
  else ret tt.

Definition plot_line_charts (df : DataFrame) (max_cols : Z) : M unit :=
  let num_cols := slice_to max_cols (columns (select_dtypes_number df)) in
  match num_cols with
  | [] => ret tt
  | _ => savefig (LineChart num_cols)
  end.

Definition plot_pie_charts (df : DataFrame) (max_cols : Z) : M unit :=
  let cats := slice_to max_cols (detect_categoricals df 20) in
  for_each cats (fun col =>
    let counts := slice_to 6 (value_counts (astype_str (column df col))) in
    savefig (PieChart col counts)).

(** [summary_text(df, desc)], without the line of sample means that [desc]
    contributes. *)
Definition summary_text (df : DataFrame) (desc : list StatRow) : TextBody :=
  SummaryText (n_rows df) (n_cols df)
    (length (select_dtypes_number df))
    (length (select_dtypes_object df))
    (list_sum (map (fun c => isna_sum (snd c)) df)).

Definition notes_text : TextBody :=
  PlainText "This report was auto-generated. Graphs are limited in number for readability. Consider domain-specific EDA for deeper insights.".

(** The body of the [with PdfPages(out_pdf) as pdf:] block. *)
Definition write_report (df : DataFrame) (desc : list StatRow) : M unit :=
  add_text_page "Dataset Summary" (summary_text df desc) ;;
  save_stats_table desc "Descriptive Statistics (Numeric)" ;;
  plot_missingness df ;;
  plot_histograms df 30 12 ;;
  plot_categorical_bars df 15 8 ;;
  plot_correlation_heatmap df ;;
  plot_boxplots df 8 ;;
  plot_violinplots df 6 ;;
  plot_density_plots df 8 ;;
  plot_scatter_matrix df 5 ;;
  plot_line_charts df 6 ;;
  plot_pie_charts df 4 ;;
  add_text_page "Notes" notes_text.

(** [analyze_to_pdf], from the loaded frame on: the statistics are computed
    first, then the sink is opened empty and every stage writes to it.  A
    stage that raises aborts the run. *)
Definition analyze_to_pdf (df : DataFrame) : Exc PdfPages :=
  match compute_basic_stats df with
  | Raise e => Raise e
  | Ok desc =>
      match write_report df desc [] with
      | Ok (_, pdf) => Ok pdf
      | Raise e => Raise e
      end
  end.

(** ** The pages each stage writes

    What a stage appends to the sink when none of its drawing calls
    raises; the stage itself is [emit] of that list (section "Stages as
    page lists" below). *)

(** Saving a list of pages in order. *)
Definition emit (pages : list Page) : M unit := for_each pages savefig.

Definition numeric_columns (df : DataFrame) : list string :=
  map fst (filter (fun c => is_number (dtype (snd c))) df).

Definition categorical_columns (df : DataFrame) (max_unique : Z) : list string :=
  map fst (filter (fun c => is_categorical max_unique (snd c)) df).

Definition table_pages (desc : list StatRow) (title : string) : list Page :=
  match desc with
  | [] => []
  | _ => [TablePage title (firstn 12 desc)]
  end.

Definition histogram_pages (df : DataFrame) (bins : Z) (cols : list string)
    : list Page :=
  map (fun col => Histogram col (dropna (values (column df col))) bins) cols.

Definition categorical_bar_pages (df : DataFrame) (top_k : Z)
    (cols : list string) : list Page :=
  map (fun col =>
         CategoricalBar col
           (slice_to top_k (value_counts (astype_str (column df col)))))
      cols.

Definition heatmap_pages (df : DataFrame) : list Page :=
  if (length (numeric_columns df) <? 2)%nat then []
  else [CorrelationHeatmap (numeric_columns df)].

Definition boxplot_pages (df : DataFrame) (cols : list string) : list Page :=
  map (fun col => Boxplot col (dropna (values (column df col)))) cols.

Definition violin_pages (df : DataFrame) (cols : list string) : list Page :=
  map (fun col => ViolinPlot col (dropna (values (column df col)))) cols.

Definition density_pages (df : DataFrame) (cols : list string) : list Page :=
  flat_map (fun col =>
              match dropna (values (column df col)) with
              | [] => []
              | data => [DensityPlot col data]
              end)
           cols.

Definition scatter_pages (cols : list string) : list Page :=
  if (1 <? length cols)%nat then [ScatterMatrix cols] else [].

Definition line_pages (cols : list string) : list Page :=
  match cols with
  | [] => []
  | _ => [LineChart cols]
  end.

Definition pie_pages (df : DataFrame) (cols : list string) : list Page :=
  map (fun col =>
         PieChart col (slice_to 6 (value_counts (astype_str (column df col)))))
      cols.

(** The charts and the table between the two text pages. *)
Definition middle_pages (df : DataFrame) (desc : list StatRow) : list Page :=
  table_pages desc "Descriptive Statistics (Numeric)"
  ++ [MissingnessBar
        (sort_values_desc (map (fun c => (fst c, isna_sum (snd c))) df))]
  ++ histogram_pages df 30 (firstn 12 (numeric_columns df))
  ++ categorical_bar_pages df 15 (firstn 8 (detect_categoricals df 20))
  ++ heatmap_pages df
  ++ boxplot_pages df (firstn 8 (numeric_columns df))
  ++ violin_pages df (firstn 6 (numeric_columns df))
  ++ density_pages df (firstn 8 (numeric_columns df))
  ++ scatter_pages (firstn 5 (numeric_columns df))
  ++ line_pages (firstn 6 (numeric_columns df))
  ++ pie_pages df (firstn 4 (detect_categoricals df 20)).

Definition report_pages (df : DataFrame) (desc : list StatRow) : list Page :=
  TextPage "Dataset Summary" (summary_text df desc)
  :: middle_pages df desc ++ [TextPage "Notes" notes_text].

(** Pages in the order of the stages. *)
Definition in_stage_order (pages : list Page) : Prop :=
  StronglySorted (fun p q => stage p <= stage q) pages.

(** The pages of one stage. *)
Definition pages_of_stage (k : nat) (pages : list Page) : list Page :=
  filter (fun p => stage p =? k)%nat pages.

(** The table the engine returns for a frame with a numeric column. *)
Definition stat_rows (df : DataFrame) : list StatRow :=
  map (fun c => mkStatRow (fst c) (count_valid (snd c)) (Some (isna_sum (snd c))))
      (select_dtypes_number df).

(** A stage charts [cols] when the pages it saves show exactly these
    columns, in this order. *)
Definition charts (g : M unit) (cols : list string) : Prop :=
  exists pages,
    (forall pdf, g pdf = emit pages pdf) /\
    flat_map page_columns pages = cols.

(** Whether a column has a non-missing entry. *)
Definition has_data (df : DataFrame) (col : string) : bool :=
  match dropna (values (column df col)) with
  | [] => false
  | _ => true
  end.

(** ** Further vocabulary *)

(** [df.isna().sum()]: the number of missing entries of every column. *)
Definition isna_sum_frame (df : DataFrame) : list (string * nat) :=
  map (fun c => (fst c, isna_sum (snd c))) df.

(** A labelled series of counts in non-increasing order. *)
Definition descending {A : Type} (l : list (A * nat)) : Prop :=
  StronglySorted (fun x y => snd y <= snd x) l.

(** The counts a bar or pie page is drawn from. *)
Definition chart_counts (p : Page) : option (string * list (value * nat)) :=
  match p with
  | CategoricalBar col counts | PieChart col counts => Some (col, counts)
  | _ => None
  end.

(** The values a per-column distribution page is drawn from. *)
Definition chart_data (p : Page) : option (string * list value) :=
  match p with
  | Histogram col data _ | Boxplot col data | ViolinPlot col data
  | DensityPlot col data => Some (col, data)
  | _ => None
  end.

(** A frame with an integer column and a boolean one. *)
Definition flags_df : DataFrame :=
  [("n", mkSeries Int64 [VInt 1; VInt 2; VInt 3]);
   ("ok", mkSeries Boolean [VBool true; VBool false; VBool true])].

(** A frame with an integer column and a float column without any value. *)
Definition gap_df : DataFrame :=
  [("id", mkSeries Int64 [VInt 1; VInt 2; VInt 3]);
   ("note", mkSeries Float64 [NaN; NaN; NaN])].

(** Counts as a bar or pie chart shows them: at most [k] entries, labels
    pairwise distinct, every count positive, largest first. *)
Definition ranked_counts {A : Type} (k : nat) (counts : list (A * nat)) : Prop :=
  length counts <= k /\
  NoDup (map fst counts) /\
  Forall (fun e => 1 <= snd e) counts /\
  descending counts.

(** The sum of the counts. *)
Definition total {A : Type} (counts : list (A * nat)) : nat :=
  list_sum (map snd counts).

(** * Facts about the primitives *)

Lemma remove_NoDup {A : Type} (dec : forall a b : A, {a = b} + {a <> b})
    (x : A) (l : list A) :
  NoDup l -> NoDup (remove dec x l).
Proof.
  induction 1 as [|y l Hy Hl IH]; simpl.
  - constructor.
  - destruct (dec x y); [assumption|].
    constructor; [|assumption].
    intro Hin. apply in_remove in Hin. tauto.
Qed.

Lemma unique_In {A : Type} (dec : forall a b : A, {a = b} + {a <> b})
    (l : list A) (x : A) :
  In x (unique dec l) <-> In x l.
Proof.
  induction l as [|y l IH]; simpl; [tauto|].
  split.
  - intros [->|Hin]; [now left|].
    apply in_remove in Hin. right. now apply IH.
  - intros [->|Hin]; [now left|].
    destruct (dec x y) as [->|Hne]; [now left|].
    right. apply in_in_remove; [assumption|now apply IH].
Qed.

Lemma unique_NoDup {A : Type} (dec : forall a b : A, {a = b} + {a <> b})
    (l : list A) :
  NoDup (unique dec l).
Proof.
  induction l as [|y l IH]; simpl; constructor.
  - apply remove_In.
  - now apply remove_NoDup.
Qed.

(** [nunique] counts the distinct non-missing values of the column. *)
Lemma nunique_spec (s : Series) :
  exists l : list value,
    NoDup l /\
    (forall v, In v l <-> In v (values s) /\ v <> NaN) /\
    nunique s = length l.
Proof.
  clear float_repr.
  exists (unique value_eq_dec (dropna (values s))).
  split; [apply unique_NoDup|]. split; [|reflexivity].
  intro v. rewrite unique_In. unfold dropna. rewrite filter_In.
  destruct v; simpl; intuition congruence.
Qed.

Lemma dropna_no_NaN (l : list value) : ~ In NaN (dropna l).
Proof.
  unfold dropna. rewrite filter_In. simpl. intros [_ H]. discriminate.
Qed.

(** Slices with a non-negative bound are prefixes. *)
Lemma slice_to_nonneg {A : Type} (k : Z) (l : list A) :
  (0 <= k)%Z -> slice_to k l = firstn (Z.to_nat k) l.
Proof.
  intro Hk. unfold slice_to.
  destruct (0 <=? k)%Z eqn:E; [reflexivity|].
  apply Z.leb_gt in E. lia.
Qed.

Lemma firstn_prefix {A : Type} (n : nat) (l : list A) :
  exists rest, l = firstn n l ++ rest /\ length (firstn n l) = Nat.min n (length l).
Proof.
  exists (skipn n l). split.
  - symmetry. apply firstn_skipn.
  - apply length_firstn.
Qed.

(** ** Lookups by label *)

Lemma getitem_In (df : DataFrame) (name : string) (s : Series) :
  NoDup (columns df) -> In (name, s) df -> getitem df name = Some s.
Proof.
  induction df as [|[n0 s0] df IH]; simpl; [tauto|].
  intros Hnd [Heq|Hin].
  - inversion Heq; subst. destruct (string_dec name name); congruence.
  - inversion Hnd as [|? ? Hnotin Hnd']; subst.
    destruct (string_dec n0 name) as [->|Hne].
    + exfalso. apply Hnotin. unfold columns.
      change name with (fst (name, s)). now apply in_map.
    + now apply IH.
Qed.

Lemma column_In (df : DataFrame) (name : string) (s : Series) :
  NoDup (columns df) -> In (name, s) df -> column df name = s.
Proof.
  intros Hnd Hin. unfold column. now rewrite (getitem_In df name s).
Qed.

(** Filtering the labels by a test on the looked-up column is filtering
    the columns. *)
Lemma filter_columns (P : Series -> bool) (df l : DataFrame) :
  NoDup (columns df) -> incl l df ->
  filter (fun col => P (column df col)) (map fst l)
  = map fst (filter (fun c => P (snd c)) l).
Proof.
  intros Hnd. induction l as [|[n s] l IH]; intro Hincl; simpl; [reflexivity|].
  rewrite (column_In df n s Hnd) by (apply Hincl; now left).
  rewrite IH by (intros x Hx; apply Hincl; now right).
  destruct (P s); reflexivity.
Qed.

Lemma map_column (df l : DataFrame) :
  NoDup (columns df) -> incl l df ->
  map (fun col => (col, column df col)) (map fst l) = l.
Proof.
  intros Hnd. induction l as [|[n s] l IH]; intro Hincl; simpl; [reflexivity|].
  rewrite (column_In df n s Hnd) by (apply Hincl; now left).
  rewrite IH by (intros x Hx; apply Hincl; now right).
  reflexivity.
Qed.

(** ** The classifier as a filter *)

Lemma detect_loop (df : DataFrame) (max_unique : Z) (l acc : list string) :
  fold_left
    (fun cats col =>
       if Dtype_eq_dec (dtype (column df col)) Object then cats ++ [col]
       else if (Z.of_nat (nunique (column df col)) <=? max_unique)%Z
            then cats ++ [col]
            else cats)
    l acc
  = acc ++ filter (fun col => is_categorical max_unique (column df col)) l.
Proof.
  revert acc. induction l as [|x l IH]; intro acc; simpl.
  - now rewrite app_nil_r.
  - rewrite IH. unfold is_categorical.
    destruct (Dtype_eq_dec _ _); [now rewrite <- app_assoc|].
    destruct (_ <=? _)%Z; [now rewrite <- app_assoc|reflexivity].
Qed.

Lemma detect_categoricals_filter (df : DataFrame) (max_unique : Z) :
  detect_categoricals df max_unique
  = filter (fun col => is_categorical max_unique (column df col)) (columns df).
Proof. unfold detect_categoricals. now rewrite detect_loop. Qed.

Lemma detect_categoricals_columns (df : DataFrame) (max_unique : Z) :
  NoDup (columns df) ->
  detect_categoricals df max_unique = categorical_columns df max_unique.
Proof.
  intro Hnd. rewrite detect_categoricals_filter. unfold columns.
  apply filter_columns; [assumption|apply incl_refl].
Qed.

Lemma select_dtypes_number_columns (df : DataFrame) :
  columns (select_dtypes_number df) = numeric_columns df.
Proof. reflexivity. Qed.

Lemma numeric_columns_In (df : DataFrame) (name : string) :
  In name (numeric_columns df) <->
  exists s, In (name, s) df /\ is_number (dtype s) = true.
Proof.
  unfold numeric_columns. rewrite in_map_iff. split.
  - intros [[n s] [Hn Hin]]. simpl in Hn. subst.
    apply filter_In in Hin. now exists s.
  - intros [s [Hin Hs]]. exists (name, s). split; [reflexivity|].
    now apply filter_In.
Qed.

Lemma categorical_columns_In (df : DataFrame) (mu : Z) (name : string) :
  In name (categorical_columns df mu) <->
  exists s, In (name, s) df /\ is_categorical mu s = true.
Proof.
  unfold categorical_columns. rewrite in_map_iff. split.
  - intros [[n s] [Hn Hin]]. simpl in Hn. subst.
    apply filter_In in Hin. now exists s.
  - intros [s [Hin Hs]]. exists (name, s). split; [reflexivity|].
    now apply filter_In.
Qed.

(** ** The statistics engine *)

Lemma lookup_by_key (f : string -> nat) (labels : list string) (n : string) :
  In n labels -> lookup (map (fun l => (l, f l)) labels) n = Some (f n).
Proof.
  induction labels as [|l labels IH]; simpl; [tauto|].
  intros Hin. destruct (string_dec l n) as [->|Hne]; [reflexivity|].
  destruct Hin as [Heq|Hin]; [congruence|now apply IH].
Qed.

Lemma compute_basic_stats_Ok (df : DataFrame) :
  NoDup (columns df) -> select_dtypes_number df <> [] ->
  compute_basic_stats df = Ok (stat_rows df).
Proof.
  intros Hnd Hne. unfold compute_basic_stats, describe_number, stat_rows.
  destruct df as [|c0 df0] eqn:Edf; [now contradiction Hne|].
  rewrite <- Edf in *. clear Edf c0 df0.
  destruct (select_dtypes_number df) as [|c l] eqn:Esel; [congruence|].
  rewrite <- Esel. clear Esel c l Hne.
  f_equal. rewrite map_map. apply map_ext_in. intros [n s] Hin. simpl.
  f_equal. unfold getitems. rewrite !map_map. simpl.
  rewrite <- (map_map fst (fun l => (l, isna_sum (column df l)))).
  rewrite (lookup_by_key (fun l => isna_sum (column df l))).
  - f_equal. f_equal. apply column_In; [assumption|].
    unfold select_dtypes_number in Hin. now apply filter_In in Hin.
  - change n with (fst (n, s)). now apply in_map.
Qed.

Lemma compute_basic_stats_Raise (df : DataFrame) :
  select_dtypes_number df = [] ->
  compute_basic_stats df
  = Raise (ValueError (match df with
                       | [] => "Cannot describe a DataFrame without columns"
                       | _ => "No objects to concatenate"
                       end)).
Proof.
  intro Hsel. unfold compute_basic_stats, describe_number.
  destruct df; [reflexivity|]. now rewrite Hsel.
Qed.

Lemma stat_rows_labels (df : DataFrame) :
  map row_label (stat_rows df) = numeric_columns df.
Proof.
  unfold stat_rows, numeric_columns, select_dtypes_number.
  rewrite map_map. reflexivity.
Qed.

(** * Stages as page lists *)

Lemma emit_Ok (pages : list Page) (pdf pdf' : PdfPages) (u : unit) :
  emit pages pdf = Ok (u, pdf') -> pdf' = pdf ++ pages.
Proof.
  revert pdf. induction pages as [|p pages IH]; intros pdf; simpl.
  - unfold ret. intro H. inversion H. now rewrite app_nil_r.
  - unfold emit in *. simpl. unfold bind, savefig.
    destruct (renders p); [|discriminate].
    intro H. apply IH in H. subst. now rewrite <- app_assoc.
Qed.

Lemma emit_renders (pages : list Page) (pdf : PdfPages) :
  forallb renders pages = true -> emit pages pdf = Ok (tt, pdf ++ pages).
Proof.
  revert pdf. induction pages as [|p pages IH]; intros pdf; simpl.
  - intros _. unfold emit, ret. simpl. now rewrite app_nil_r.
  - intro H. apply andb_prop in H as [Hp Hps].
    unfold emit in *. simpl. unfold bind, savefig. rewrite Hp.
    rewrite IH by assumption. now rewrite <- app_assoc.
Qed.

Lemma emit_Ok_renders (pages : list Page) (pdf pdf' : PdfPages) (u : unit) :
  emit pages pdf = Ok (u, pdf') -> forallb renders pages = true.
Proof.
  revert pdf. induction pages as [|p pages IH]; intros pdf; simpl; [reflexivity|].
  unfold emit in *. simpl. unfold bind, savefig.
  destruct (renders p); [|discriminate].
  intro H. now apply IH in H.
Qed.

Lemma savefig_emit (p : Page) (pdf : PdfPages) :
  savefig p pdf = emit [p] pdf.
Proof.
  unfold emit. simpl. unfold bind, savefig, ret.
  destruct (renders p); reflexivity.
Qed.

Lemma ret_emit (pdf : PdfPages) : ret tt pdf = emit [] pdf.
Proof. reflexivity. Qed.

Lemma bind_emit (c1 c2 : M unit) (l1 l2 : list Page) :
  (forall pdf, c1 pdf = emit l1 pdf) ->
  (forall pdf, c2 pdf = emit l2 pdf) ->
  forall pdf, bind c1 (fun _ => c2) pdf = emit (l1 ++ l2) pdf.
Proof.
  intros H1 H2 pdf. unfold bind. rewrite H1. clear H1.
  revert pdf. induction l1 as [|p l1 IH]; intro pdf.
  - simpl. apply H2.
  - unfold emit in *. simpl. unfold bind at 1 2.
    destruct (savefig p pdf) as [[u pdf']|e]; [apply IH|reflexivity].
Qed.

Lemma for_each_emit {A : Type} (f : A -> list Page) (body : A -> M unit)
    (l : list A) :
  (forall x pdf, body x pdf = emit (f x) pdf) ->
  forall pdf, for_each l body pdf = emit (flat_map f l) pdf.
Proof.
  intro Hbody. induction l as [|x l IH]; intro pdf; [reflexivity|].
  simpl. apply bind_emit; [apply Hbody|apply IH].
Qed.

Lemma for_each_savefig {A : Type} (g : A -> Page) (l : list A)
    (pdf : PdfPages) :
  for_each l (fun x => savefig (g x)) pdf = emit (map g l) pdf.
Proof.
  rewrite (for_each_emit (fun x => [g x])).
  - replace (flat_map (fun x => [g x]) l) with (map g l); [reflexivity|].
    induction l as [|x l IH]; simpl; congruence.
  - intros. apply savefig_emit.
Qed.

Lemma add_text_page_emit (title : string) (body : TextBody) (pdf : PdfPages) :
  add_text_page title body pdf = emit [TextPage title body] pdf.
Proof. apply savefig_emit. Qed.

Lemma save_stats_table_emit (desc : list StatRow) (title : string)
    (pdf : PdfPages) :
  save_stats_table desc title pdf = emit (table_pages desc title) pdf.
Proof.
  unfold save_stats_table, table_pages.
  destruct desc; [reflexivity|]. apply savefig_emit.
Qed.

Lemma plot_missingness_emit (df : DataFrame) (pdf : PdfPages) :
  plot_missingness df pdf
  = emit [MissingnessBar
            (sort_values_desc (map (fun c => (fst c, isna_sum (snd c))) df))]
         pdf.
Proof. apply savefig_emit. Qed.

Lemma plot_histograms_emit (df : DataFrame) (bins max_cols : Z)
    (pdf : PdfPages) :
  plot_histograms df bins max_cols pdf
  = emit (histogram_pages df bins (slice_to max_cols (numeric_columns df))) pdf.
Proof. apply for_each_savefig. Qed.

Lemma plot_categorical_bars_emit (df : DataFrame) (top_k max_cols : Z)
    (pdf : PdfPages) :
  plot_categorical_bars df top_k max_cols pdf
  = emit (categorical_bar_pages df top_k
            (slice_to max_cols (detect_categoricals df 20))) pdf.
Proof. apply for_each_savefig. Qed.

Lemma plot_correlation_heatmap_emit (df : DataFrame) (pdf : PdfPages) :
  plot_correlation_heatmap df pdf = emit (heatmap_pages df) pdf.
Proof.
  unfold plot_correlation_heatmap, heatmap_pages, numeric_columns, columns,
    select_dtypes_number.
  rewrite length_map.
  destruct (_ <? 2)%nat; [reflexivity|apply savefig_emit].
Qed.

Lemma plot_boxplots_emit (df : DataFrame) (max_cols : Z) (pdf : PdfPages) :
  plot_boxplots df max_cols pdf
  = emit (boxplot_pages df (slice_to max_cols (numeric_columns df))) pdf.
Proof. apply for_each_savefig. Qed.

Lemma plot_violinplots_emit (df : DataFrame) (max_cols : Z) (pdf : PdfPages) :
  plot_violinplots df max_cols pdf
  = emit (violin_pages df (slice_to max_cols (numeric_columns df))) pdf.
Proof. apply for_each_savefig. Qed.

Lemma plot_density_plots_emit (df : DataFrame) (max_cols : Z) (pdf : PdfPages) :
  plot_density_plots df max_cols pdf
  = emit (density_pages df (slice_to max_cols (numeric_columns df))) pdf.
Proof.
  unfold plot_density_plots, density_pages. apply for_each_emit.
  intros col pdf0. destruct (dropna _); [reflexivity|apply savefig_emit].
Qed.

Lemma plot_scatter_matrix_emit (df : DataFrame) (max_cols : Z) (pdf : PdfPages) :
  plot_scatter_matrix df max_cols pdf
  = emit (scatter_pages (slice_to max_cols (numeric_columns df))) pdf.
Proof.
  unfold plot_scatter_matrix, scatter_pages.
  rewrite select_dtypes_number_columns.
  destruct (1 <? _)%nat; [apply savefig_emit|reflexivity].
Qed.

Lemma plot_line_charts_emit (df : DataFrame) (max_cols : Z) (pdf : PdfPages) :
  plot_line_charts df max_cols pdf
  = emit (line_pages (slice_to max_cols (numeric_columns df))) pdf.
Proof.
  unfold plot_line_charts, line_pages.
  rewrite select_dtypes_number_columns.
  destruct (slice_to _ _); [reflexivity|apply savefig_emit].
Qed.

Lemma plot_pie_charts_emit (df : DataFrame) (max_cols : Z) (pdf : PdfPages) :
  plot_pie_charts df max_cols pdf
  = emit (pie_pages df (slice_to max_cols (detect_categoricals df 20))) pdf.
Proof. apply for_each_savefig. Qed.

(** The whole block saves the report's pages in order. *)
Lemma write_report_emit (df : DataFrame) (desc : list StatRow)
    (pdf : PdfPages) :
  write_report df desc pdf = emit (report_pages df desc) pdf.
Proof.
  unfold write_report, report_pages, middle_pages.
  change (TextPage "Dataset Summary" (summary_text df desc) :: ?l)
    with ([TextPage "Dataset Summary" (summary_text df desc)] ++ l).
  rewrite <- !app_assoc.
  revert pdf.
  apply bind_emit; [apply add_text_page_emit|].
  apply bind_emit; [apply save_stats_table_emit|].
  apply bind_emit; [apply plot_missingness_emit|].
  apply bind_emit; [intro; apply plot_histograms_emit|].
  apply bind_emit; [intro; apply plot_categorical_bars_emit|].
  apply bind_emit; [apply plot_correlation_heatmap_emit|].
  apply bind_emit; [intro; apply plot_boxplots_emit|].
  apply bind_emit; [intro; apply plot_violinplots_emit|].
  apply bind_emit; [intro; apply plot_density_plots_emit|].
  apply bind_emit; [intro; apply plot_scatter_matrix_emit|].
  apply bind_emit; [intro; apply plot_line_charts_emit|].
  apply bind_emit; [intro; apply plot_pie_charts_emit|].
  apply add_text_page_emit.
Qed.

(** A finished run wrote exactly the report's pages. *)
Lemma analyze_to_pdf_Ok (df : DataFrame) (doc : PdfPages) :
  analyze_to_pdf df = Ok doc ->
  exists desc,
    compute_basic_stats df = Ok desc /\ doc = report_pages df desc.
Proof.
  unfold analyze_to_pdf.
  destruct (compute_basic_stats df) as [desc|e]; [|discriminate].
  rewrite write_report_emit.
  destruct (emit _ _) as [[u pdf]|e] eqn:E; [|discriminate].
  intro H. inversion H; subst. exists desc. split; [reflexivity|].
  now apply emit_Ok in E.
Qed.

(** The run finishes when the statistics are computed and every page of
    the report renders. *)
Lemma analyze_to_pdf_renders (df : DataFrame) (desc : list StatRow) :
  compute_basic_stats df = Ok desc ->
  forallb renders (report_pages df desc) = true ->
  analyze_to_pdf df = Ok (report_pages df desc).
Proof.
  intros Hdesc Hr. unfold analyze_to_pdf. rewrite Hdesc.
  rewrite write_report_emit, (emit_renders _ _ Hr). reflexivity.
Qed.

(** * The page order *)

Lemma stage_block (k k' : nat) (l rest : list Page) :
  k' <= k ->
  Forall (fun p => stage p = k) l ->
  in_stage_order rest /\ Forall (fun p => k <= stage p) rest ->
  in_stage_order (l ++ rest) /\ Forall (fun p => k' <= stage p) (l ++ rest).
Proof.
  intros Hk Hl [Hs Hb]. unfold in_stage_order in *.
  induction Hl as [|p l Hp Hl IH]; simpl.
  - split; [assumption|]. eapply Forall_impl; [|exact Hb].
    simpl. intros; lia.
  - destruct IH as [IHs IHb]. split.
    + constructor; [assumption|].
      apply Forall_app. split.
      * eapply Forall_impl; [|exact Hl]. simpl. intros; lia.
      * eapply Forall_impl; [|exact Hb]. simpl. intros; lia.
    + constructor; [lia|assumption].
Qed.

Lemma stage_map {A : Type} (k : nat) (g : A -> Page) (l : list A) :
  (forall x, stage (g x) = k) -> Forall (fun p => stage p = k) (map g l).
Proof.
  intro Hg. apply Forall_forall. intros p Hin.
  apply in_map_iff in Hin as [x [<- _]]. apply Hg.
Qed.

Lemma table_pages_stage (desc : list StatRow) (title : string) :
  Forall (fun p => stage p = 1) (table_pages desc title).
Proof. destruct desc; simpl; repeat constructor. Qed.

Lemma histogram_pages_stage (df : DataFrame) (bins : Z) (cols : list string) :
  Forall (fun p => stage p = 3) (histogram_pages df bins cols).
Proof. now apply stage_map. Qed.

Lemma categorical_bar_pages_stage (df : DataFrame) (k : Z) (cols : list string) :
  Forall (fun p => stage p = 4) (categorical_bar_pages df k cols).
Proof. now apply stage_map. Qed.

Lemma heatmap_pages_stage (df : DataFrame) :
  Forall (fun p => stage p = 5) (heatmap_pages df).
Proof. unfold heatmap_pages. destruct (_ <? _)%nat; repeat constructor. Qed.

Lemma boxplot_pages_stage (df : DataFrame) (cols : list string) :
  Forall (fun p => stage p = 6) (boxplot_pages df cols).
Proof. now apply stage_map. Qed.

Lemma violin_pages_stage (df : DataFrame) (cols : list string) :
  Forall (fun p => stage p = 7) (violin_pages df cols).
Proof. now apply stage_map. Qed.

Lemma density_pages_stage (df : DataFrame) (cols : list string) :
  Forall (fun p => stage p = 8) (density_pages df cols).
Proof.
  clear renders.
  apply Forall_forall. intros p Hin. unfold density_pages in Hin.
  apply in_flat_map in Hin as [col [_ Hin]].
  destruct (dropna _); simpl in Hin; [tauto|].
  destruct Hin as [<-|[]]. reflexivity.
Qed.

Lemma scatter_pages_stage (cols : list string) :
  Forall (fun p => stage p = 9) (scatter_pages cols).
Proof. unfold scatter_pages. destruct (_ <? _)%nat; repeat constructor. Qed.

Lemma line_pages_stage (cols : list string) :
  Forall (fun p => stage p = 10) (line_pages cols).
Proof. destruct cols; simpl; repeat constructor. Qed.

Lemma pie_pages_stage (df : DataFrame) (cols : list string) :
  Forall (fun p => stage p = 11) (pie_pages df cols).
Proof. now apply stage_map. Qed.

Lemma middle_pages_sorted (df : DataFrame) (desc : list StatRow) :
  in_stage_order (middle_pages df desc)
  /\ Forall (fun p => 1 <= stage p) (middle_pages df desc).
Proof.
  unfold middle_pages.
  apply (stage_block 1 1); [lia|apply table_pages_stage|].
  apply (stage_block 2 1); [lia|repeat constructor|].
  apply (stage_block 3 2); [lia|apply histogram_pages_stage|].
  apply (stage_block 4 3); [lia|apply categorical_bar_pages_stage|].
  apply (stage_block 5 4); [lia|apply heatmap_pages_stage|].
  apply (stage_block 6 5); [lia|apply boxplot_pages_stage|].
  apply (stage_block 7 6); [lia|apply violin_pages_stage|].
  apply (stage_block 8 7); [lia|apply density_pages_stage|].
  apply (stage_block 9 8); [lia|apply scatter_pages_stage|].
  apply (stage_block 10 9); [lia|apply line_pages_stage|].
  rewrite <- (app_nil_r (pie_pages _ _)).
  apply (stage_block 11 10); [lia|apply pie_pages_stage|].
  split; constructor.
Qed.

Lemma pages_of_stage_app (k : nat) (l1 l2 : list Page) :
  pages_of_stage k (l1 ++ l2) = pages_of_stage k l1 ++ pages_of_stage k l2.
Proof. apply filter_app. Qed.

Lemma pages_of_stage_other (j k : nat) (l : list Page) :
  Forall (fun p => stage p = k) l -> k <> j -> pages_of_stage j l = [].
Proof.
  intros Hl Hne. induction Hl as [|p l Hp Hl IH]; [reflexivity|].
  simpl. rewrite IH. destruct (Nat.eqb_spec (stage p) j); [lia|reflexivity].
Qed.

Lemma pages_of_stage_same (k : nat) (l : list Page) :
  Forall (fun p => stage p = k) l -> pages_of_stage k l = l.
Proof.
  intros Hl. induction Hl as [|p l Hp Hl IH]; [reflexivity|].
  simpl. rewrite IH. destruct (Nat.eqb_spec (stage p) k); [reflexivity|lia].
Qed.

Ltac drop_stage j :=
  rewrite ?(pages_of_stage_other j 1 (table_pages _ _))
    by (apply table_pages_stage || lia);
  rewrite ?(pages_of_stage_other j 3 (histogram_pages _ _ _))
    by (apply histogram_pages_stage || lia);
  rewrite ?(pages_of_stage_other j 4 (categorical_bar_pages _ _ _))
    by (apply categorical_bar_pages_stage || lia);
  rewrite ?(pages_of_stage_other j 5 (heatmap_pages _))
    by (apply heatmap_pages_stage || lia);
  rewrite ?(pages_of_stage_other j 6 (boxplot_pages _ _))
    by (apply boxplot_pages_stage || lia);
  rewrite ?(pages_of_stage_other j 7 (violin_pages _ _))
    by (apply violin_pages_stage || lia);
  rewrite ?(pages_of_stage_other j 8 (density_pages _ _))
    by (apply density_pages_stage || lia);
  rewrite ?(pages_of_stage_other j 9 (scatter_pages _))
    by (apply scatter_pages_stage || lia);
  rewrite ?(pages_of_stage_other j 10 (line_pages _))
    by (apply line_pages_stage || lia);
  rewrite ?(pages_of_stage_other j 11 (pie_pages _ _))
    by (apply pie_pages_stage || lia).

Lemma middle_pages_table (df : DataFrame) (desc : list StatRow) :
  pages_of_stage 1 (middle_pages df desc)
  = table_pages desc "Descriptive Statistics (Numeric)".
Proof.
  unfold middle_pages. rewrite !pages_of_stage_app.
  rewrite (pages_of_stage_same 1) by apply table_pages_stage.
  drop_stage 1. simpl. now rewrite !app_nil_r.
Qed.

Lemma middle_pages_missingness (df : DataFrame) (desc : list StatRow) :
  pages_of_stage 2 (middle_pages df desc)
  = [MissingnessBar
       (sort_values_desc (map (fun c => (fst c, isna_sum (snd c))) df))].
Proof.
  unfold middle_pages. rewrite !pages_of_stage_app.
  drop_stage 2. reflexivity.
Qed.

(** C1: whenever the pipeline produces a document, the document opens with
    the summary text page and closes with the notes text page, and the
    pages in between follow the order of the stages: statistics table,
    missingness, histograms, categorical bars, correlation heatmap, box
    plots, violin plots, density plots, scatter matrix, line chart, pie
    charts.  The statistics table has a page, the first 12 rows at most,
    exactly when the table is not empty, and the missingness chart has
    exactly one page. *)
Theorem C1_page_order (df : DataFrame) (doc : PdfPages) :
  analyze_to_pdf df = Ok doc ->
  exists desc body middle,
    compute_basic_stats df = Ok desc /\
    doc = TextPage "Dataset Summary" body
          :: middle ++ [TextPage "Notes" notes_text] /\
    Forall (fun p => 1 <= stage p) middle /\
    in_stage_order middle /\
    pages_of_stage 1 middle
    = match desc with
      | [] => []
      | _ => [TablePage "Descriptive Statistics (Numeric)" (firstn 12 desc)]
      end /\
    length (pages_of_stage 2 middle) = 1.
Proof.
  intro Hrun. apply analyze_to_pdf_Ok in Hrun as [desc [Hdesc ->]].
  exists desc, (summary_text df desc), (middle_pages df desc).
  destruct (middle_pages_sorted df desc) as [Hs Hb].
  repeat split; try assumption.
  - apply middle_pages_table.
  - now rewrite middle_pages_missingness.
Qed.

(** * The classifier and the statistics table *)

Lemma is_categorical_iff (mu : Z) (s : Series) :
  is_categorical mu s = true <->
  dtype s = Object \/ (Z.of_nat (nunique s) <= mu)%Z.
Proof.
  clear float_repr.
  unfold is_categorical. destruct (Dtype_eq_dec (dtype s) Object) as [E|E].
  - tauto.
  - rewrite Z.leb_le. tauto.
Qed.

Lemma detect_categoricals_In (df : DataFrame) (mu : Z) (name : string)
    (s : Series) :
  NoDup (columns df) -> In (name, s) df ->
  (In name (detect_categoricals df mu) <-> is_categorical mu s = true).
Proof.
  clear float_repr.
  intros Hnd Hin. rewrite detect_categoricals_filter, filter_In.
  rewrite (column_In df name s Hnd Hin). split; [tauto|].
  intro H. split; [|assumption].
  unfold columns. change name with (fst (name, s)). now apply in_map.
Qed.

Lemma classification_In (df : DataFrame) (mu : Z) (name : string)
    (lbl : Label) :
  In (name, lbl) (classification df mu) <->
  In name (columns df) /\
  lbl = (if in_dec string_dec name (detect_categoricals df mu)
         then Categorical else Numeric).
Proof.
  unfold classification. rewrite in_map_iff. split.
  - intros [col [Heq Hin]]. inversion Heq; subst. now split.
  - intros [Hin ->]. now exists name.
Qed.

(** C2: in a frame with distinct labels, the classifier lists a column as
    categorical exactly when its dtype is object or it has at most
    [max_unique] distinct non-missing values; a column with exactly
    [max_unique] of them is categorical; and the classification gives
    every column one label, categorical under that condition and numeric
    otherwise. *)
Theorem C2_classifier (df : DataFrame) (max_unique : Z) (name : string)
    (s : Series) :
  NoDup (columns df) -> In (name, s) df ->
  (In name (detect_categoricals df max_unique) <->
   dtype s = Object \/ (Z.of_nat (nunique s) <= max_unique)%Z) /\
  (Z.of_nat (nunique s) = max_unique ->
   In name (detect_categoricals df max_unique)) /\
  (exists lbl, In (name, lbl) (classification df max_unique) /\
     forall lbl', In (name, lbl') (classification df max_unique) -> lbl' = lbl) /\
  (In (name, Categorical) (classification df max_unique) <->
   dtype s = Object \/ (Z.of_nat (nunique s) <= max_unique)%Z) /\
  (In (name, Numeric) (classification df max_unique) <->
   dtype s <> Object /\ (max_unique < Z.of_nat (nunique s))%Z).
Proof.
  intros Hnd Hin.
  pose proof (detect_categoricals_In df max_unique name s Hnd Hin) as Hcat.
  rewrite is_categorical_iff in Hcat.
  assert (Hcol : In name (columns df)).
  { unfold columns. change name with (fst (name, s)). now apply in_map. }
  split; [exact Hcat|]. split.
  { intro Heq. apply Hcat. right. lia. }
  split.
  { eexists. split.
    - apply classification_In. split; [exact Hcol|reflexivity].
    - intros lbl' H. now apply classification_In in H. }
  split.
  - rewrite classification_In.
    destruct (in_dec string_dec name (detect_categoricals df max_unique))
      as [Hyes|Hno].
    + split; [intros _; now apply Hcat|now split].
    + split; [intros [_ H]; discriminate|intro H; exfalso; apply Hno, Hcat, H].
  - rewrite classification_In.
    destruct (in_dec string_dec name (detect_categoricals df max_unique))
      as [Hyes|Hno].
    + split; [intros [_ H]; discriminate|].
      intros [Hd Hn]. apply Hcat in Hyes. destruct Hyes; [contradiction|lia].
    + split; [|now split].
      intros _. split.
      * intro Hd. apply Hno, Hcat. now left.
      * destruct (Z.lt_ge_cases max_unique (Z.of_nat (nunique s))) as [H|H];
          [assumption|]. exfalso. apply Hno, Hcat. right. lia.
Qed.

Lemma NoDup_filter_columns (P : string * Series -> bool) (df : DataFrame) :
  NoDup (columns df) -> NoDup (map fst (filter P df)).
Proof.
  unfold columns. induction df as [|c df IH]; simpl; intro Hnd.
  - constructor.
  - inversion Hnd as [|? ? Hnotin Hnd']; subst.
    destruct (P c); simpl; [|now apply IH].
    constructor; [|now apply IH].
    intro Hin. apply Hnotin. apply in_map_iff in Hin as [c' [Heq Hin]].
    apply filter_In in Hin as [Hin _]. rewrite <- Heq. now apply in_map.
Qed.

(** C3: in a frame with distinct labels, the statistics table, when the
    engine returns one, has the numeric-dtype columns as its rows, each
    once and in frame order, and the [missing] entry of a column's row is
    the number of NaN entries of that column; the engine fails to return a
    table only for a frame without numeric-dtype columns. *)
Theorem C3_stats_rows (df : DataFrame) :
  NoDup (columns df) ->
  match compute_basic_stats df with
  | Ok desc =>
      map row_label desc = numeric_columns df /\
      NoDup (map row_label desc) /\
      (forall name s, In (name, s) df -> is_number (dtype s) = true ->
         exists r, In r desc /\ row_label r = name /\
                   row_missing r = Some (length (filter isna (values s)))) /\
      (forall r, In r desc ->
         exists s, In (row_label r, s) df /\ is_number (dtype s) = true /\
                   row_missing r = Some (length (filter isna (values s))))
  | Raise _ => numeric_columns df = []
  end.
Proof.
  intro Hnd.
  destruct (select_dtypes_number df) as [|c l] eqn:Esel.
  - rewrite compute_basic_stats_Raise by assumption.
    unfold numeric_columns. fold (select_dtypes_number df). now rewrite Esel.
  - rewrite compute_basic_stats_Ok by (assumption || congruence).
    rewrite stat_rows_labels.
    split; [reflexivity|]. split; [now apply NoDup_filter_columns|]. split.
    + intros name s Hin Hnum.
      exists (mkStatRow name (count_valid s) (Some (isna_sum s))).
      split; [|now split]. unfold stat_rows. apply in_map_iff.
      exists (name, s). split; [reflexivity|].
      unfold select_dtypes_number. now apply filter_In.
    + intros r Hr. unfold stat_rows in Hr.
      apply in_map_iff in Hr as [[name s] [<- Hin]].
      unfold select_dtypes_number in Hin. apply filter_In in Hin as [Hin Hnum].
      exists s. simpl. now repeat split.
Qed.

(** The engine fails on every frame without numeric-dtype columns. *)
Lemma compute_basic_stats_no_numeric (df : DataFrame) :
  numeric_columns df = [] ->
  exists msg, compute_basic_stats df = Raise (ValueError msg).
Proof.
  intro H. eexists. apply compute_basic_stats_Raise.
  unfold numeric_columns in H. fold (select_dtypes_number df) in H.
  destruct (select_dtypes_number df); [reflexivity|discriminate].
Qed.

(** C4: on a frame whose only column is text the statistics engine raises
    [ValueError]; the specification expects an empty table there. *)
Theorem C4_no_numeric_raises :
  compute_basic_stats text_only_df
  = Raise (ValueError "No objects to concatenate").
Proof. reflexivity. Qed.

(** * Degenerate input *)

(** Without eligible columns a per-column generator leaves the sink as it
    found it, and the pairwise ones skip below two numeric columns. *)
Lemma no_numeric_columns_no_pages (df : DataFrame) (pdf : PdfPages) :
  numeric_columns df = [] ->
  plot_histograms df 30 12 pdf = Ok (tt, pdf) /\
  plot_boxplots df 8 pdf = Ok (tt, pdf) /\
  plot_violinplots df 6 pdf = Ok (tt, pdf) /\
  plot_density_plots df 8 pdf = Ok (tt, pdf) /\
  plot_line_charts df 6 pdf = Ok (tt, pdf).
Proof.
  intro H.
  rewrite plot_histograms_emit, plot_boxplots_emit, plot_violinplots_emit,
    plot_density_plots_emit, plot_line_charts_emit.
  rewrite H. repeat split.
Qed.

Lemma no_categorical_columns_no_pages (df : DataFrame) (pdf : PdfPages) :
  detect_categoricals df 20 = [] ->
  plot_categorical_bars df 15 8 pdf = Ok (tt, pdf) /\
  plot_pie_charts df 4 pdf = Ok (tt, pdf).
Proof.
  intro H. rewrite plot_categorical_bars_emit, plot_pie_charts_emit.
  rewrite H. split; reflexivity.
Qed.

Lemma firstn_short {A : Type} (n : nat) (l : list A) :
  length l < 2 -> length (firstn n l) < 2.
Proof. rewrite length_firstn. lia. Qed.

Lemma single_numeric_column_skips_pairs (df : DataFrame) (pdf : PdfPages) :
  length (numeric_columns df) < 2 ->
  plot_correlation_heatmap df pdf = Ok (tt, pdf) /\
  plot_scatter_matrix df 5 pdf = Ok (tt, pdf).
Proof.
  intro H. rewrite plot_correlation_heatmap_emit, plot_scatter_matrix_emit.
  unfold heatmap_pages, scatter_pages.
  change (slice_to 5 (numeric_columns df)) with (firstn 5 (numeric_columns df)).
  pose proof (firstn_short 5 _ H) as H5.
  destruct (Nat.ltb_spec (length (numeric_columns df)) 2); [|lia].
  destruct (Nat.ltb_spec 1 (length (firstn 5 (numeric_columns df)))); [lia|].
  split; reflexivity.
Qed.

(** C5: for a float column whose entries are all missing, the density
    generator skips the column, but the histogram, box plot and violin
    plot generators do not: each hands the empty data to its drawing call
    and then saves a page for the column, or fails with the drawing call. *)
Theorem C5_all_missing_column_is_drawn (pdf : PdfPages) :
  plot_density_plots all_missing_df 8 pdf = Ok (tt, pdf) /\
  plot_boxplots all_missing_df 8 pdf
  = (if renders (Boxplot "x" []) then Ok (tt, pdf ++ [Boxplot "x" []])
     else Raise BackendError) /\
  plot_violinplots all_missing_df 6 pdf
  = (if renders (ViolinPlot "x" []) then Ok (tt, pdf ++ [ViolinPlot "x" []])
     else Raise BackendError) /\
  plot_histograms all_missing_df 30 12 pdf
  = (if renders (Histogram "x" [] 30)
     then Ok (tt, pdf ++ [Histogram "x" [] 30])
     else Raise BackendError).
Proof.
  repeat split; cbv [plot_boxplots plot_violinplots plot_histograms for_each bind savefig ret];
    simpl; destruct (renders _); reflexivity.
Qed.

(** A frame without numeric-dtype columns aborts the run before any page
    is written, whatever its number of rows. *)
Lemma analyze_to_pdf_no_numeric (df : DataFrame) :
  numeric_columns df = [] ->
  exists msg, analyze_to_pdf df = Raise (ValueError msg).
Proof.
  intro H. destruct (compute_basic_stats_no_numeric df H) as [msg Hmsg].
  exists msg. unfold analyze_to_pdf. now rewrite Hmsg.
Qed.

(** C6: for the frame of a header-only file (no rows, every column of
    object dtype) the run aborts in the statistics engine, before the sink
    is opened: no page is written. *)
Theorem C6_zero_rows_aborts :
  analyze_to_pdf header_only_df
  = Raise (ValueError "No objects to concatenate").
Proof. reflexivity. Qed.

(** * Bounded selection *)

Lemma page_columns_map (g : string -> Page) (cols : list string) :
  (forall col, page_columns (g col) = [col]) ->
  flat_map page_columns (map g cols) = cols.
Proof.
  intro Hg. induction cols as [|c cols IH]; simpl; [reflexivity|].
  now rewrite Hg, IH.
Qed.

Lemma density_pages_columns (df : DataFrame) (cols : list string) :
  flat_map page_columns (density_pages df cols) = filter (has_data df) cols.
Proof.
  unfold density_pages, has_data.
  induction cols as [|c cols IH]; simpl; [reflexivity|].
  rewrite flat_map_app, IH.
  destruct (dropna (values (column df c))); reflexivity.
Qed.

Lemma charts_Ok (g : M unit) (cols : list string) (pdf pdf' : PdfPages)
    (u : unit) :
  charts g cols -> g pdf = Ok (u, pdf') ->
  exists pages, pdf' = pdf ++ pages /\ flat_map page_columns pages = cols.
Proof.
  intros [pages [Hg Hcols]] Hrun. exists pages. split; [|assumption].
  rewrite Hg in Hrun. now apply emit_Ok in Hrun.
Qed.

(** C7: in a frame with distinct labels, each bounded generator charts the
    first k eligible columns in the frame's own column order (histograms
    12, categorical bars 8, box plots 8, violin plots 6, density plots 8,
    scatter matrix 5, line chart 6, pie charts 4), the eligible columns
    being the numeric-dtype columns, respectively the columns the
    classifier accepts with the threshold 20, filtered from the frame in
    order.  Of its eight columns the density generator charts those with
    data, and the scatter matrix is drawn for two columns or more. *)
Theorem C7_first_k_in_frame_order (df : DataFrame) :
  NoDup (columns df) ->
  let num := map fst (filter (fun c => is_number (dtype (snd c))) df) in
  let cat := map fst (filter (fun c => is_categorical 20 (snd c)) df) in
  charts (plot_histograms df 30 12) (firstn 12 num) /\
  charts (plot_categorical_bars df 15 8) (firstn 8 cat) /\
  charts (plot_boxplots df 8) (firstn 8 num) /\
  charts (plot_violinplots df 6) (firstn 6 num) /\
  charts (plot_density_plots df 8) (filter (has_data df) (firstn 8 num)) /\
  charts (plot_scatter_matrix df 5)
         (if (1 <? length (firstn 5 num))%nat then firstn 5 num else []) /\
  charts (plot_line_charts df 6) (firstn 6 num) /\
  charts (plot_pie_charts df 4) (firstn 4 cat).
Proof.
  intros Hnd num cat.
  assert (Hcat : detect_categoricals df 20 = cat)
    by now apply detect_categoricals_columns.
  fold (numeric_columns df) in num.
  repeat split.
  - exists (histogram_pages df 30 (firstn 12 num)). split.
    + intro. apply plot_histograms_emit.
    + now apply page_columns_map.
  - exists (categorical_bar_pages df 15 (firstn 8 cat)). split.
    + intro. rewrite plot_categorical_bars_emit, Hcat. reflexivity.
    + now apply page_columns_map.
  - exists (boxplot_pages df (firstn 8 num)). split.
    + intro. apply plot_boxplots_emit.
    + now apply page_columns_map.
  - exists (violin_pages df (firstn 6 num)). split.
    + intro. apply plot_violinplots_emit.
    + now apply page_columns_map.
  - exists (density_pages df (firstn 8 num)). split.
    + intro. apply plot_density_plots_emit.
    + apply density_pages_columns.
  - exists (scatter_pages (firstn 5 num)). split.
    + intro. apply plot_scatter_matrix_emit.
    + unfold scatter_pages. destruct (1 <? _)%nat; simpl;
        [apply app_nil_r|reflexivity].
  - exists (line_pages (firstn 6 num)). split.
    + intro. apply plot_line_charts_emit.
    + unfold line_pages. destruct (firstn 6 num); simpl;
        [reflexivity|now rewrite app_nil_r].
  - exists (pie_pages df (firstn 4 cat)). split.
    + intro. rewrite plot_pie_charts_emit, Hcat. reflexivity.
    + now apply page_columns_map.
Qed.

(** * The statistics page *)

Lemma firstn_skipn_disjoint {A : Type} (n : nat) (l : list A) (x : A) :
  NoDup l -> In x (skipn n l) -> ~ In x (firstn n l).
Proof.
  intros Hnd Hs Hf. rewrite <- (firstn_skipn n l) in Hnd.
  revert Hnd Hs Hf. generalize (firstn n l) (skipn n l).
  intros l1 l2. induction l1 as [|y l1 IH]; simpl; [tauto|].
  intros Hnd Hs [->|Hf].
  - inversion Hnd as [|? ? Hnotin _]; subst.
    apply Hnotin. apply in_or_app. now right.
  - inversion Hnd; subst. now apply IH.
Qed.

Lemma skipn_incl {A : Type} (n : nat) (l : list A) (x : A) :
  In x (skipn n l) -> In x l.
Proof.
  intro H. rewrite <- (firstn_skipn n l). apply in_or_app. now right.
Qed.

(** C8: in a frame with distinct labels and more than 12 numeric-dtype
    columns, the computed table has a row for every numeric column, while
    the only table page of the document, its second page, shows the rows
    of the first 12 numeric columns and none of the others. *)
Theorem C8_table_page_truncated (df : DataFrame) (doc : PdfPages) :
  NoDup (columns df) ->
  12 < length (numeric_columns df) ->
  analyze_to_pdf df = Ok doc ->
  exists desc,
    compute_basic_stats df = Ok desc /\
    map row_label desc = numeric_columns df /\
    nth_error doc 1
    = Some (TablePage "Descriptive Statistics (Numeric)" (firstn 12 desc)) /\
    (forall title rows, In (TablePage title rows) doc ->
       rows = firstn 12 desc /\
       map row_label rows = firstn 12 (numeric_columns df) /\
       length rows = 12) /\
    (forall name, In name (skipn 12 (numeric_columns df)) ->
       In name (map row_label desc) /\
       forall title rows, In (TablePage title rows) doc ->
                          ~ In name (map row_label rows)).
Proof.
  intros Hnd Hlen Hrun.
  apply analyze_to_pdf_Ok in Hrun as [desc [Hdesc ->]].
  assert (Hne : select_dtypes_number df <> []).
  { intro E. unfold numeric_columns in Hlen.
    fold (select_dtypes_number df) in Hlen. rewrite E in Hlen.
    simpl in Hlen. lia. }
  rewrite compute_basic_stats_Ok in Hdesc by assumption.
  inversion Hdesc; subst desc. clear Hdesc.
  pose proof (stat_rows_labels df) as Hlabels.
  assert (Hrows : forall title rows,
             In (TablePage title rows) (report_pages df (stat_rows df)) ->
             rows = firstn 12 (stat_rows df)).
  { intros title rows Hin. unfold report_pages in Hin.
    destruct Hin as [Hin|Hin]; [discriminate|].
    apply in_app_or in Hin as [Hin|[Hin|[]]]; [|discriminate].
    assert (Hst : In (TablePage title rows)
                     (pages_of_stage 1 (middle_pages df (stat_rows df)))).
    { apply filter_In. now split. }
    rewrite middle_pages_table in Hst. unfold table_pages in Hst.
    destruct (stat_rows df); simpl in Hst; [tauto|].
    destruct Hst as [Hst|[]]. now inversion Hst. }
  exists (stat_rows df).
  split; [now apply compute_basic_stats_Ok|]. split; [assumption|].
  split; [|split].
  - unfold report_pages, middle_pages, table_pages.
    destruct (stat_rows df) eqn:E; [|reflexivity].
    rewrite <- Hlabels in Hlen. simpl in Hlen. lia.
  - intros title rows Hin. apply Hrows in Hin. subst rows.
    split; [reflexivity|]. split.
    + now rewrite <- firstn_map, Hlabels.
    + rewrite length_firstn. rewrite <- Hlabels, length_map in Hlen. lia.
  - intros name Hin. split; [rewrite Hlabels; now apply (skipn_incl 12)|].
    intros title rows Hpage. apply Hrows in Hpage. subst rows.
    rewrite <- firstn_map, Hlabels.
    apply firstn_skipn_disjoint; [|assumption].
    now apply NoDup_filter_columns.
Qed.

(** * Columns that are both numeric and categorical *)

Ltac find_block :=
  repeat match goal with
    | H : In ?p ?b |- In ?p ?b => exact H
    | H : In ?p ?b |- In ?p (?b ++ _) => apply in_or_app; left; exact H
    | |- In _ (_ ++ _) => apply in_or_app; right
    | |- In _ (_ :: _) => right
    end.

Lemma middle_in_report (df : DataFrame) (desc : list StatRow) (p : Page) :
  In p (middle_pages df desc) -> In p (report_pages df desc).
Proof.
  intro H. unfold report_pages. right. apply in_or_app. now left.
Qed.

(** C9, amended: in a frame with distinct labels, a numeric-dtype column
    with at most 20 distinct non-missing values is eligible on both sides:
    it is one of the numeric columns and one of the detected categorical
    columns.  A generator charts it when it is among the first k columns
    the generator takes, so a finished report holds a histogram page and a
    categorical bar page for it when it is among the first 12 numeric and
    the first 8 categorical columns, and likewise a box plot (8), a violin
    plot (6), a density plot (8, when it has data), a place in the scatter
    matrix (5, when two columns or more are taken) and in the line chart
    (6), and a pie chart (4). *)
Theorem C9_eligible_on_both_sides (df : DataFrame) (name : string)
    (s : Series) :
  NoDup (columns df) -> In (name, s) df ->
  is_number (dtype s) = true -> nunique s <= 20 ->
  let num := numeric_columns df in
  let cat := detect_categoricals df 20 in
  In name num /\ In name cat /\
  forall doc, analyze_to_pdf df = Ok doc ->
    (In name (firstn 12 num) -> In (Histogram name (dropna (values s)) 30) doc) /\
    (In name (firstn 8 cat) ->
     In (CategoricalBar name (slice_to 15 (value_counts (astype_str s)))) doc) /\
    (In name (firstn 8 num) -> In (Boxplot name (dropna (values s))) doc) /\
    (In name (firstn 6 num) -> In (ViolinPlot name (dropna (values s))) doc) /\
    (In name (firstn 8 num) -> dropna (values s) <> [] ->
     In (DensityPlot name (dropna (values s))) doc) /\
    (In name (firstn 5 num) -> 1 < length (firstn 5 num) ->
     In (ScatterMatrix (firstn 5 num)) doc) /\
    (In name (firstn 6 num) -> In (LineChart (firstn 6 num)) doc) /\
    (In name (firstn 4 cat) ->
     In (PieChart name (slice_to 6 (value_counts (astype_str s)))) doc).
Proof.
  intros Hnd Hin Hnum Huniq num cat.
  pose proof (column_In df name s Hnd Hin) as Hcol.
  split; [apply numeric_columns_In; now exists s|].
  split.
  { apply (detect_categoricals_In df 20 name s Hnd Hin).
    apply is_categorical_iff. right. lia. }
  intros doc Hrun. apply analyze_to_pdf_Ok in Hrun as [desc [_ ->]].
  repeat split.
  - intro Hsel. apply middle_in_report.
    assert (H : In (Histogram name (dropna (values s)) 30)
                   (histogram_pages df 30 (firstn 12 num))).
    { unfold histogram_pages. apply in_map_iff. exists name.
      now rewrite Hcol. }
    unfold middle_pages. find_block.
  - intro Hsel. apply middle_in_report.
    assert (H : In (CategoricalBar name
                      (slice_to 15 (value_counts (astype_str s))))
                   (categorical_bar_pages df 15 (firstn 8 cat))).
    { unfold categorical_bar_pages. apply in_map_iff. exists name.
      now rewrite Hcol. }
    unfold middle_pages. find_block.
  - intro Hsel. apply middle_in_report.
    assert (H : In (Boxplot name (dropna (values s)))
                   (boxplot_pages df (firstn 8 num))).
    { unfold boxplot_pages. apply in_map_iff. exists name. now rewrite Hcol. }
    unfold middle_pages. find_block.
  - intro Hsel. apply middle_in_report.
    assert (H : In (ViolinPlot name (dropna (values s)))
                   (violin_pages df (firstn 6 num))).
    { unfold violin_pages. apply in_map_iff. exists name. now rewrite Hcol. }
    unfold middle_pages. find_block.
  - intros Hsel Hdata. apply middle_in_report.
    assert (H : In (DensityPlot name (dropna (values s)))
                   (density_pages df (firstn 8 num))).
    { unfold density_pages. apply in_flat_map. exists name.
      split; [assumption|]. rewrite Hcol.
      destruct (dropna (values s)); [congruence|now left]. }
    unfold middle_pages. find_block.
  - intros Hsel Hlen. apply middle_in_report.
    assert (H : In (ScatterMatrix (firstn 5 num))
                   (scatter_pages (firstn 5 num))).
    { unfold scatter_pages.
      destruct (Nat.ltb_spec 1 (length (firstn 5 num))); [now left|lia]. }
    unfold middle_pages. find_block.
  - intro Hsel. apply middle_in_report.
    assert (H : In (LineChart (firstn 6 num)) (line_pages (firstn 6 num))).
    { unfold line_pages. destruct (firstn 6 num); [contradiction|now left]. }
    unfold middle_pages. find_block.
  - intro Hsel. apply middle_in_report.
    assert (H : In (PieChart name (slice_to 6 (value_counts (astype_str s))))
                   (pie_pages df (firstn 4 cat))).
    { unfold pie_pages. apply in_map_iff. exists name. now rewrite Hcol. }
    unfold middle_pages. find_block.
Qed.

(** * Missing entries in the categorical charts *)

Lemma insert_desc_In {A : Type} (x y : A * nat) (l : list (A * nat)) :
  In y (insert_desc x l) <-> y = x \/ In y l.
Proof.
  induction l as [|z l IH]; simpl.
  - intuition congruence.
  - destruct (snd z <=? snd x)%nat; simpl; [intuition congruence|].
    rewrite IH. intuition congruence.
Qed.

Lemma sort_values_desc_In {A : Type} (y : A * nat) (l : list (A * nat)) :
  In y (sort_values_desc l) <-> In y l.
Proof.
  induction l as [|x l IH]; simpl; [tauto|].
  rewrite insert_desc_In, IH. intuition congruence.
Qed.

Lemma value_counts_In (s : Series) (v : value) (n : nat) :
  In (v, n) (value_counts s) <->
  In v (dropna (values s)) /\
  n = count_occ value_eq_dec (dropna (values s)) v.
Proof.
  unfold value_counts. rewrite sort_values_desc_In, in_map_iff. split.
  - intros [v' [Heq Hin]]. inversion Heq; subst.
    apply unique_In in Hin. now split.
  - intros [Hin ->]. exists v. split; [reflexivity|now apply unique_In].
Qed.

Lemma astype_str_dropna (s : Series) :
  dropna (values (astype_str s)) = values (astype_str s).
Proof.
  unfold astype_str, dropna. simpl.
  induction (values s) as [|v l IH]; simpl; congruence.
Qed.

Lemma astype_str_nan_count (s : Series) :
  isna_sum s
  <= count_occ value_eq_dec (values (astype_str s)) (VStr "nan").
Proof.
  unfold isna_sum, astype_str. simpl.
  induction (values s) as [|v l IH]; [simpl; lia|].
  cbn [map filter count_occ].
  destruct (value_eq_dec (VStr (str v)) (VStr "nan")) as [E|E];
    destruct v; cbn [isna length str] in *; try lia.
  now contradiction E.
Qed.

Lemma isna_sum_pos (s : Series) : In NaN (values s) -> 1 <= isna_sum s.
Proof.
  unfold isna_sum. induction (values s) as [|v l IH]; simpl; [tauto|].
  intros [->|Hin]; simpl; [lia|].
  destruct (isna v); simpl; [lia|now apply IH].
Qed.

Lemma slice_to_all {A : Type} (k : nat) (l : list A) :
  length l <= k -> slice_to (Z.of_nat k) l = l.
Proof.
  intro H. rewrite slice_to_nonneg by lia.
  rewrite Nat2Z.id. now apply firstn_all2.
Qed.

Lemma emitted_page (pages : list Page) (pdf pdf' : PdfPages) (u : unit)
    (p : Page) :
  emit pages pdf = Ok (u, pdf') -> In p pages -> In p pdf'.
Proof.
  intros H Hin. apply emit_Ok in H. subst. apply in_or_app. now right.
Qed.

(** C10: for a column with missing entries, [astype(str)] turns every
    entry into a string, the missing ones into "nan", so the frequency
    count drops nothing and holds an entry for the label "nan" that counts
    at least the missing entries.  The bar chart (top 15) and the pie chart
    (top 6) of a selected column are drawn from these counts, and show the
    "nan" entry whenever the column has no more labels than the chart
    takes. *)
Theorem C10_missing_tallied_as_nan (df : DataFrame) (col : string) :
  In NaN (values (column df col)) ->
  let s := column df col in
  let counts := value_counts (astype_str s) in
  (forall v, In v (values (astype_str s)) -> exists t, v = VStr t) /\
  exists n,
    In (VStr "nan", n) counts /\
    1 <= isna_sum s /\ isna_sum s <= n /\
    (forall pdf pdf' u,
       In col (slice_to 8 (detect_categoricals df 20)) ->
       plot_categorical_bars df 15 8 pdf = Ok (u, pdf') ->
       In (CategoricalBar col (slice_to 15 counts)) pdf' /\
       (length counts <= 15 -> In (VStr "nan", n) (slice_to 15 counts))) /\
    (forall pdf pdf' u,
       In col (slice_to 4 (detect_categoricals df 20)) ->
       plot_pie_charts df 4 pdf = Ok (u, pdf') ->
       In (PieChart col (slice_to 6 counts)) pdf' /\
       (length counts <= 6 -> In (VStr "nan", n) (slice_to 6 counts))).
Proof.
  intros Hnan s counts. split.
  { intros v Hin. unfold astype_str in Hin. simpl in Hin.
    apply in_map_iff in Hin as [v' [<- _]]. now eexists. }
  exists (count_occ value_eq_dec (values (astype_str s)) (VStr "nan")).
  pose proof (isna_sum_pos s Hnan) as Hpos.
  pose proof (astype_str_nan_count s) as Hcount.
  assert (Hentry : In (VStr "nan",
                       count_occ value_eq_dec (values (astype_str s))
                                 (VStr "nan")) counts).
  { unfold counts. apply value_counts_In. rewrite astype_str_dropna.
    split; [|reflexivity].
    apply (count_occ_In value_eq_dec). lia. }
  split; [exact Hentry|]. split; [exact Hpos|]. split; [exact Hcount|]. split.
  - intros pdf pdf' u Hsel Hrun. split.
    + rewrite plot_categorical_bars_emit in Hrun.
      apply (emitted_page _ _ _ _ _ Hrun).
      unfold categorical_bar_pages. apply in_map_iff. now exists col.
    + intro Hlen. now rewrite (slice_to_all 15).
  - intros pdf pdf' u Hsel Hrun. split.
    + rewrite plot_pie_charts_emit in Hrun.
      apply (emitted_page _ _ _ _ _ Hrun).
      unfold pie_pages. apply in_map_iff. now exists col.
    + intro Hlen. now rewrite (slice_to_all 6).
Qed.

(** * Sorted counts *)

Lemma insert_desc_perm {A : Type} (x : A * nat) (l : list (A * nat)) :
  Permutation (insert_desc x l) (x :: l).
Proof.
  induction l as [|y l IH]; simpl; [reflexivity|].
  destruct (snd y <=? snd x)%nat; [reflexivity|].
  rewrite IH. apply perm_swap.
Qed.

Lemma sort_values_desc_perm {A : Type} (l : list (A * nat)) :
  Permutation (sort_values_desc l) l.
Proof.
  induction l as [|x l IH]; simpl; [reflexivity|].
  rewrite insert_desc_perm. now constructor.
Qed.

Lemma insert_desc_descending {A : Type} (x : A * nat) (l : list (A * nat)) :
  descending l -> descending (insert_desc x l).
Proof.
  unfold descending. induction 1 as [|y l Hs IH Hy]; simpl.
  - repeat constructor.
  - destruct (Nat.leb_spec (snd y) (snd x)) as [Hle|Hlt].
    + constructor; [now constructor|].
      constructor; [assumption|].
      eapply Forall_impl; [|exact Hy]. simpl. intros; lia.
    + constructor; [assumption|].
      rewrite insert_desc_perm. constructor; [lia|assumption].
Qed.

Lemma sort_values_desc_descending {A : Type} (l : list (A * nat)) :
  descending (sort_values_desc l).
Proof.
  induction l as [|x l IH]; simpl.
  - constructor.
  - now apply insert_desc_descending.
Qed.

Lemma sort_values_desc_sum {A : Type} (l : list (A * nat)) :
  list_sum (map snd (sort_values_desc l)) = list_sum (map snd l).
Proof.
  induction l as [|x l IH]; simpl; [reflexivity|].
  rewrite <- IH. generalize (sort_values_desc l). intro t.
  induction t as [|y t IHt]; simpl; [reflexivity|].
  destruct (snd y <=? snd x)%nat; simpl; [reflexivity|].
  rewrite IHt. simpl. lia.
Qed.

Lemma descending_prefix {A : Type} (l1 l2 : list (A * nat)) :
  descending (l1 ++ l2) -> descending l1.
Proof.
  unfold descending. induction l1 as [|x l1 IH]; simpl; intro H.
  - constructor.
  - inversion H as [|? ? Hs Hx]; subst. constructor; [now apply IH|].
    apply Forall_app in Hx. tauto.
Qed.

Lemma descending_firstn {A : Type} (n : nat) (l : list (A * nat)) :
  descending l -> descending (firstn n l).
Proof.
  intro H. apply (descending_prefix _ (skipn n l)). now rewrite firstn_skipn.
Qed.

Lemma NoDup_prefix {A : Type} (l1 l2 : list A) :
  NoDup (l1 ++ l2) -> NoDup l1.
Proof.
  induction l1 as [|x l1 IH]; simpl; intro H; [constructor|].
  inversion H as [|? ? Hx Hnd]; subst. constructor; [|now apply IH].
  intro Hin. apply Hx. apply in_or_app. now left.
Qed.

Lemma slice_to_prefix {A : Type} (k : Z) (l : list A) :
  exists rest, l = slice_to k l ++ rest.
Proof.
  unfold slice_to. destruct (0 <=? k)%Z;
    eexists; symmetry; apply firstn_skipn.
Qed.

Lemma slice_to_length {A : Type} (k : Z) (l : list A) :
  (0 <= k)%Z -> length (slice_to k l) <= Z.to_nat k.
Proof.
  intro Hk. rewrite slice_to_nonneg by assumption.
  rewrite length_firstn. lia.
Qed.

(** X1: the missingness chart, whenever it is saved, is the one page the
    generator adds; it has one bar per column of the frame, bar heights
    being the columns' numbers of missing entries, and the bars stand in
    non-increasing order of height. *)
Theorem X1_missingness_bars (df : DataFrame) (pdf pdf' : PdfPages) (u : unit) :
  plot_missingness df pdf = Ok (u, pdf') ->
  exists bars,
    pdf' = pdf ++ [MissingnessBar bars] /\
    Permutation bars (isna_sum_frame df) /\
    descending bars.
Proof.
  rewrite plot_missingness_emit. intro H. apply emit_Ok in H.
  eexists. split; [exact H|]. split.
  - apply sort_values_desc_perm.
  - apply sort_values_desc_descending.
Qed.

(** * Frequency counts *)

Lemma indicator_sum {A : Type} (dec : forall a b : A, {a = b} + {a <> b})
    (a : A) (u : list A) :
  NoDup u -> In a u ->
  list_sum (map (fun x => if dec a x then 1 else 0) u) = 1.
Proof.
  induction 1 as [|y u Hy Hnd IH]; simpl; [tauto|].
  intros [->|Hin].
  - destruct (dec a a) as [_|Hne]; [|congruence].
    f_equal. clear IH. induction u as [|z u IHu]; simpl; [reflexivity|].
    destruct (dec a z) as [->|_]; [exfalso; apply Hy; now left|].
    apply IHu.
    + intro H. apply Hy. now right.
    + now inversion Hnd.
  - destruct (dec a y) as [->|_]; [contradiction|]. now apply IH.
Qed.

Lemma count_occ_sum {A : Type} (dec : forall a b : A, {a = b} + {a <> b})
    (l u : list A) :
  NoDup u -> incl l u ->
  list_sum (map (count_occ dec l) u) = length l.
Proof.
  intros Hnd. induction l as [|a l IH]; intro Hincl.
  - simpl. clear Hnd Hincl. induction u; simpl; [reflexivity|assumption].
  - assert (Hsplit : forall v,
               list_sum (map (count_occ dec (a :: l)) v)
               = list_sum (map (fun x => if dec a x then 1 else 0) v)
                 + list_sum (map (count_occ dec l) v)).
    { induction v as [|x v IHv]; simpl; [reflexivity|].
      simpl in IHv. rewrite IHv. destruct (dec a x); lia. }
    rewrite Hsplit, indicator_sum, IH; simpl; try lia; try assumption.
    + intros x Hx. apply Hincl. now right.
    + apply Hincl. now left.
Qed.

Lemma value_counts_perm (s : Series) :
  Permutation (value_counts s)
    (map (fun v => (v, count_occ value_eq_dec (dropna (values s)) v))
         (unique value_eq_dec (dropna (values s)))).
Proof. apply sort_values_desc_perm. Qed.

Lemma value_counts_labels (s : Series) :
  Permutation (map fst (value_counts s))
              (unique value_eq_dec (dropna (values s))).
Proof.
  rewrite value_counts_perm, map_map. simpl. now rewrite map_id.
Qed.

Lemma value_counts_NoDup (s : Series) : NoDup (map fst (value_counts s)).
Proof.
  eapply Permutation_NoDup.
  - symmetry. apply value_counts_labels.
  - apply unique_NoDup.
Qed.

Lemma value_counts_positive (s : Series) :
  Forall (fun e => 1 <= snd e) (value_counts s).
Proof.
  apply Forall_forall. intros [v n] Hin.
  apply value_counts_In in Hin as [Hin ->]. simpl.
  now apply (count_occ_In value_eq_dec).
Qed.

Lemma value_counts_descending (s : Series) : descending (value_counts s).
Proof. apply sort_values_desc_descending. Qed.

(** The counts add up to the number of non-missing entries. *)
Lemma value_counts_total (s : Series) : total (value_counts s) = count_valid s.
Proof.
  unfold total, value_counts. rewrite sort_values_desc_sum, map_map. simpl.
  apply count_occ_sum; [apply unique_NoDup|].
  intros v Hv. now apply unique_In.
Qed.

Lemma astype_str_total (s : Series) :
  total (value_counts (astype_str s)) = length (values s).
Proof.
  rewrite value_counts_total. unfold count_valid.
  rewrite astype_str_dropna. unfold astype_str. simpl. apply length_map.
Qed.

Lemma total_prefix {A : Type} (l1 l2 : list (A * nat)) :
  total l1 <= total (l1 ++ l2).
Proof. unfold total. rewrite map_app, list_sum_app. lia. Qed.

Lemma ranked_slice (k : Z) (s : Series) :
  (0 <= k)%Z -> ranked_counts (Z.to_nat k) (slice_to k (value_counts s)).
Proof.
  clear float_repr.
  intro Hk. destruct (slice_to_prefix k (value_counts s)) as [rest Hrest].
  pose proof (value_counts_NoDup s) as Hnd.
  pose proof (value_counts_positive s) as Hpos.
  pose proof (value_counts_descending s) as Hdesc.
  rewrite Hrest in Hnd, Hpos, Hdesc.
  repeat split.
  - now apply slice_to_length.
  - rewrite map_app in Hnd. now apply NoDup_prefix in Hnd.
  - apply Forall_app in Hpos. tauto.
  - now apply descending_prefix in Hdesc.
Qed.

(** X2: the categorical bar generator saves at most 8 pages, each a bar
    chart of at most 15 bars, and the pie generator at most 4 pages, each a
    pie of at most 6 slices; on every such page the labels are pairwise
    distinct, every count is positive and the counts stand largest
    first. *)
Theorem X2_bar_and_pie_shape (df : DataFrame) :
  (exists pages,
     (forall pdf, plot_categorical_bars df 15 8 pdf = emit pages pdf) /\
     length pages <= 8 /\
     Forall (fun p => exists col counts,
                 p = CategoricalBar col counts /\ ranked_counts 15 counts)
            pages) /\
  (exists pages,
     (forall pdf, plot_pie_charts df 4 pdf = emit pages pdf) /\
     length pages <= 4 /\
     Forall (fun p => exists col counts,
                 p = PieChart col counts /\ ranked_counts 6 counts)
            pages).
Proof.
  split.
  - exists (categorical_bar_pages df 15 (slice_to 8 (detect_categoricals df 20))).
    split; [intro; apply plot_categorical_bars_emit|]. split.
    + unfold categorical_bar_pages. rewrite length_map.
      now apply (slice_to_length 8).
    + apply Forall_forall. intros p Hin. unfold categorical_bar_pages in Hin.
      apply in_map_iff in Hin as [col [<- _]]. do 2 eexists.
      split; [reflexivity|]. now apply (ranked_slice 15).
  - exists (pie_pages df (slice_to 4 (detect_categoricals df 20))).
    split; [intro; apply plot_pie_charts_emit|]. split.
    + unfold pie_pages. rewrite length_map. now apply (slice_to_length 4).
    + apply Forall_forall. intros p Hin. unfold pie_pages in Hin.
      apply in_map_iff in Hin as [col [<- _]]. do 2 eexists.
      split; [reflexivity|]. now apply (ranked_slice 6).
Qed.

Lemma slice_total (k : nat) (s : Series) :
  total (slice_to (Z.of_nat k) (value_counts (astype_str s)))
  <= length (values s) /\
  (length (value_counts (astype_str s)) <= k ->
   total (slice_to (Z.of_nat k) (value_counts (astype_str s)))
   = length (values s)).
Proof.
  split.
  - destruct (slice_to_prefix (Z.of_nat k) (value_counts (astype_str s)))
      as [rest Hrest].
    rewrite <- (astype_str_total s). rewrite Hrest at 2. apply total_prefix.
  - intro Hlen. rewrite slice_to_all by assumption. apply astype_str_total.
Qed.

(** X3: on every page of the categorical bar and the pie generator the
    counts shown add up to no more than the number of entries of the
    page's column, missing entries included, and to exactly that number
    when the column has no more distinct labels than the chart takes (15
    bars, 6 slices). *)
Theorem X3_bar_and_pie_totals (df : DataFrame) :
  (exists pages,
     (forall pdf, plot_categorical_bars df 15 8 pdf = emit pages pdf) /\
     Forall (fun p => exists col counts,
                 p = CategoricalBar col counts /\
                 total counts <= length (values (column df col)) /\
                 (length (value_counts (astype_str (column df col))) <= 15 ->
                  total counts = length (values (column df col))))
            pages) /\
  (exists pages,
     (forall pdf, plot_pie_charts df 4 pdf = emit pages pdf) /\
     Forall (fun p => exists col counts,
                 p = PieChart col counts /\
                 total counts <= length (values (column df col)) /\
                 (length (value_counts (astype_str (column df col))) <= 6 ->
                  total counts = length (values (column df col))))
            pages).
Proof.
  split.
  - exists (categorical_bar_pages df 15 (slice_to 8 (detect_categoricals df 20))).
    split; [intro; apply plot_categorical_bars_emit|].
    apply Forall_forall. intros p Hin. unfold categorical_bar_pages in Hin.
    apply in_map_iff in Hin as [col [<- _]]. do 2 eexists.
    split; [reflexivity|]. apply (slice_total 15).
  - exists (pie_pages df (slice_to 4 (detect_categoricals df 20))).
    split; [intro; apply plot_pie_charts_emit|].
    apply Forall_forall. intros p Hin. unfold pie_pages in Hin.
    apply in_map_iff in Hin as [col [<- _]]. do 2 eexists.
    split; [reflexivity|]. apply (slice_total 6).
Qed.

(** * The pages of a finished document, stage by stage *)

Lemma in_pages_of_stage (k : nat) (pages : list Page) (p : Page) :
  In p (pages_of_stage k pages) <-> In p pages /\ stage p = k.
Proof.
  unfold pages_of_stage. rewrite filter_In, Nat.eqb_eq. reflexivity.
Qed.

Lemma report_page_stage (df : DataFrame) (desc : list StatRow) (k : nat)
    (p : Page) :
  1 <= k ->
  (In p (report_pages df desc) /\ stage p = k <->
   In p (pages_of_stage k (middle_pages df desc))).
Proof.
  intro Hk. rewrite in_pages_of_stage. unfold report_pages. split.
  - intros [[<-|Hin] Hst]; [simpl in Hst; lia|].
    apply in_app_or in Hin as [Hin|[<-|[]]]; [now split|simpl in Hst; lia].
  - intros [Hin Hst]. split; [|assumption].
    right. apply in_or_app. now left.
Qed.

Lemma middle_pages_histograms (df : DataFrame) (desc : list StatRow) :
  pages_of_stage 3 (middle_pages df desc)
  = histogram_pages df 30 (firstn 12 (numeric_columns df)).
Proof.
  unfold middle_pages. rewrite !pages_of_stage_app.
  rewrite (pages_of_stage_same 3 (histogram_pages _ _ _))
    by apply histogram_pages_stage.
  drop_stage 3. simpl. now rewrite ?app_nil_r.
Qed.

Lemma middle_pages_bars (df : DataFrame) (desc : list StatRow) :
  pages_of_stage 4 (middle_pages df desc)
  = categorical_bar_pages df 15 (firstn 8 (detect_categoricals df 20)).
Proof.
  unfold middle_pages. rewrite !pages_of_stage_app.
  rewrite (pages_of_stage_same 4 (categorical_bar_pages _ _ _))
    by apply categorical_bar_pages_stage.
  drop_stage 4. simpl. now rewrite ?app_nil_r.
Qed.

Lemma middle_pages_heatmap (df : DataFrame) (desc : list StatRow) :
  pages_of_stage 5 (middle_pages df desc) = heatmap_pages df.
Proof.
  unfold middle_pages. rewrite !pages_of_stage_app.
  rewrite (pages_of_stage_same 5 (heatmap_pages _))
    by apply heatmap_pages_stage.
  drop_stage 5. simpl. now rewrite ?app_nil_r.
Qed.

Lemma middle_pages_boxplots (df : DataFrame) (desc : list StatRow) :
  pages_of_stage 6 (middle_pages df desc)
  = boxplot_pages df (firstn 8 (numeric_columns df)).
Proof.
  unfold middle_pages. rewrite !pages_of_stage_app.
  rewrite (pages_of_stage_same 6 (boxplot_pages _ _))
    by apply boxplot_pages_stage.
  drop_stage 6. simpl. now rewrite ?app_nil_r.
Qed.

Lemma middle_pages_violins (df : DataFrame) (desc : list StatRow) :
  pages_of_stage 7 (middle_pages df desc)
  = violin_pages df (firstn 6 (numeric_columns df)).
Proof.
  unfold middle_pages. rewrite !pages_of_stage_app.
  rewrite (pages_of_stage_same 7 (violin_pages _ _))
    by apply violin_pages_stage.
  drop_stage 7. simpl. now rewrite ?app_nil_r.
Qed.

Lemma middle_pages_densities (df : DataFrame) (desc : list StatRow) :
  pages_of_stage 8 (middle_pages df desc)
  = density_pages df (firstn 8 (numeric_columns df)).
Proof.
  unfold middle_pages. rewrite !pages_of_stage_app.
  rewrite (pages_of_stage_same 8 (density_pages _ _))
    by apply density_pages_stage.
  drop_stage 8. simpl. now rewrite ?app_nil_r.
Qed.

Lemma middle_pages_scatter (df : DataFrame) (desc : list StatRow) :
  pages_of_stage 9 (middle_pages df desc)
  = scatter_pages (firstn 5 (numeric_columns df)).
Proof.
  unfold middle_pages. rewrite !pages_of_stage_app.
  rewrite (pages_of_stage_same 9 (scatter_pages _))
    by apply scatter_pages_stage.
  drop_stage 9. simpl. now rewrite ?app_nil_r.
Qed.

Lemma middle_pages_line (df : DataFrame) (desc : list StatRow) :
  pages_of_stage 10 (middle_pages df desc)
  = line_pages (firstn 6 (numeric_columns df)).
Proof.
  unfold middle_pages. rewrite !pages_of_stage_app.
  rewrite (pages_of_stage_same 10 (line_pages _))
    by apply line_pages_stage.
  drop_stage 10. simpl. now rewrite ?app_nil_r.
Qed.

Lemma middle_pages_pies (df : DataFrame) (desc : list StatRow) :
  pages_of_stage 11 (middle_pages df desc)
  = pie_pages df (firstn 4 (detect_categoricals df 20)).
Proof.
  unfold middle_pages. rewrite !pages_of_stage_app.
  rewrite (pages_of_stage_same 11 (pie_pages _ _))
    by apply pie_pages_stage.
  drop_stage 11. simpl. now rewrite ?app_nil_r.
Qed.

(** The labels of the table need no assumption on the frame. *)
Lemma compute_basic_stats_labels (df : DataFrame) (desc : list StatRow) :
  compute_basic_stats df = Ok desc ->
  map row_label desc = numeric_columns df /\ numeric_columns df <> [].
Proof.
  unfold compute_basic_stats, describe_number, numeric_columns.
  fold (select_dtypes_number df).
  destruct df as [|c0 df0] eqn:Edf; [discriminate|].
  rewrite <- Edf. clear Edf c0 df0.
  destruct (select_dtypes_number df) as [|c l] eqn:Esel; [discriminate|].
  assert (Hne : c :: l <> []) by discriminate.
  revert Hne. generalize (c :: l). intros sel Hne H.
  injection H as <-. split.
  - rewrite !map_map. reflexivity.
  - destruct sel; [contradiction|discriminate].
Qed.

Lemma emit_fails (pages : list Page) (pdf : PdfPages) :
  forallb renders pages = false -> emit pages pdf = Raise BackendError.
Proof.
  revert pdf. induction pages as [|p pages IH]; intro pdf; simpl;
    [discriminate|].
  unfold emit in *. simpl. unfold bind, savefig.
  destruct (renders p); simpl; [apply IH|reflexivity].
Qed.

(** X6: the outcome of a run.  When the frame has no numeric-dtype column
    the statistics engine raises [ValueError] and the run raises the same
    exception.  Otherwise the run finishes with exactly the pages of the
    report if every one of them renders, and raises the backend's error if
    one does not: no shorter or different document is ever returned. *)
Theorem X6_run_outcome (df : DataFrame) :
  match compute_basic_stats df with
  | Raise e =>
      numeric_columns df = [] /\
      (exists msg, e = ValueError msg) /\
      analyze_to_pdf df = Raise e
  | Ok desc =>
      numeric_columns df <> [] /\
      analyze_to_pdf df
      = (if forallb renders (report_pages df desc)
         then Ok (report_pages df desc)
         else Raise BackendError)
  end.
Proof.
  destruct (compute_basic_stats df) as [desc|e] eqn:E.
  - split; [now apply (compute_basic_stats_labels df desc)|].
    unfold analyze_to_pdf. rewrite E, write_report_emit.
    destruct (forallb renders (report_pages df desc)) eqn:Hr.
    + now rewrite emit_renders.
    + now rewrite emit_fails.
  - assert (Hnum : numeric_columns df = []).
    { unfold numeric_columns. fold (select_dtypes_number df).
      destruct (select_dtypes_number df) as [|c l] eqn:Esel; [reflexivity|].
      exfalso. unfold compute_basic_stats, describe_number in E.
      destruct df; [discriminate|]. now rewrite Esel in E. }
    split; [assumption|].
    destruct (compute_basic_stats_no_numeric df Hnum) as [msg Hmsg].
    rewrite E in Hmsg. inversion Hmsg; subst.
    split; [now exists msg|]. unfold analyze_to_pdf. now rewrite E.
Qed.

(** * What a finished document holds *)

Lemma filter_exclusive_length {A : Type} (P Q : A -> bool) (l : list A) :
  (forall x, P x && Q x = false) ->
  length (filter P l) + length (filter Q l) <= length l.
Proof.
  intro H. induction l as [|x l IH]; simpl; [lia|].
  specialize (H x). destruct (P x), (Q x); simpl in *; try discriminate; lia.
Qed.

(** X4: the figures on the summary page of a finished document agree with
    the rest of the document: the number of numeric columns is the number
    of rows of the statistics table and is at least one, the number of
    columns is the number of bars of the missingness chart, the total of
    missing values is the sum of those bars, and numeric and object
    columns together are no more than the columns. *)
Theorem X4_summary_figures (df : DataFrame) (doc : PdfPages) :
  analyze_to_pdf df = Ok doc ->
  exists rows cols numeric object missing bars desc,
    hd_error doc
    = Some (TextPage "Dataset Summary"
              (SummaryText rows cols numeric object missing)) /\
    In (MissingnessBar bars) doc /\
    compute_basic_stats df = Ok desc /\
    numeric = length desc /\ 1 <= numeric /\
    cols = length bars /\
    missing = total bars /\
    numeric + object <= cols.
Proof.
  intro Hrun. apply analyze_to_pdf_Ok in Hrun as [desc [Hdesc ->]].
  destruct (compute_basic_stats_labels df desc Hdesc) as [Hlab Hne].
  assert (Hlen : length desc = length (select_dtypes_number df)).
  { rewrite <- (length_map row_label), Hlab. unfold numeric_columns.
    now rewrite length_map. }
  exists (n_rows df), (n_cols df), (length (select_dtypes_number df)),
    (length (select_dtypes_object df)),
    (list_sum (map (fun c => isna_sum (snd c)) df)),
    (sort_values_desc (isna_sum_frame df)), desc.
  split; [reflexivity|]. split.
  { apply middle_in_report. unfold middle_pages. apply in_or_app. right.
    now left. }
  split; [assumption|]. split; [now symmetry|]. split.
  { rewrite <- Hlen, <- (length_map row_label), Hlab.
    destruct (numeric_columns df); [congruence|simpl; lia]. }
  split.
  { rewrite (Permutation_length (sort_values_desc_perm _)).
    unfold isna_sum_frame, n_cols. now rewrite length_map. }
  split.
  { unfold total. rewrite sort_values_desc_sum. unfold isna_sum_frame.
    now rewrite map_map. }
  unfold n_cols, select_dtypes_number, select_dtypes_object.
  apply filter_exclusive_length. intros [n s]. simpl.
  destruct (dtype s); reflexivity.
Qed.

Lemma density_pages_length (df : DataFrame) (cols : list string) :
  length (density_pages df cols) <= length cols.
Proof.
  unfold density_pages. induction cols as [|c cols IH]; simpl; [lia|].
  rewrite length_app. destruct (dropna _); simpl; lia.
Qed.

(** X5: a finished document has at least 8 and at most 53 pages, however
    many columns the frame has. *)
Theorem X5_page_count (df : DataFrame) (doc : PdfPages) :
  analyze_to_pdf df = Ok doc -> 8 <= length doc <= 53.
Proof.
  intro Hrun. apply analyze_to_pdf_Ok in Hrun as [desc [Hdesc ->]].
  destruct (compute_basic_stats_labels df desc Hdesc) as [Hlab Hne].
  assert (Hnum : 1 <= length (numeric_columns df)).
  { destruct (numeric_columns df); [congruence|simpl; lia]. }
  assert (Hdesc1 : length (table_pages desc "Descriptive Statistics (Numeric)")
                   = 1).
  { destruct desc; [|reflexivity]. simpl in Hlab.
    rewrite <- Hlab in Hnum. simpl in Hnum. lia. }
  pose proof (density_pages_length df (firstn 8 (numeric_columns df))) as Hd.
  assert (Hline : length (line_pages (firstn 6 (numeric_columns df))) = 1).
  { destruct (numeric_columns df); [congruence|reflexivity]. }
  assert (Hheat : length (heatmap_pages df) <= 1).
  { unfold heatmap_pages. destruct (_ <? 2)%nat; simpl; lia. }
  assert (Hscat : length (scatter_pages (firstn 5 (numeric_columns df))) <= 1).
  { unfold scatter_pages. destruct (1 <? _)%nat; simpl; lia. }
  unfold report_pages, middle_pages. cbn [length].
  rewrite !length_app. cbn [length]. rewrite Hdesc1, Hline.
  unfold histogram_pages, categorical_bar_pages, boxplot_pages, violin_pages,
    pie_pages.
  rewrite !length_map. rewrite !length_firstn in *. lia.
Qed.

(** X7: the second page of a finished document is always the statistics
    table; it shows the rows of the first 12 numeric columns, so between 1
    and 12 rows. *)
Theorem X7_table_is_second_page (df : DataFrame) (doc : PdfPages) :
  analyze_to_pdf df = Ok doc ->
  exists rows,
    nth_error doc 1
    = Some (TablePage "Descriptive Statistics (Numeric)" rows) /\
    map row_label rows = firstn 12 (numeric_columns df) /\
    length rows = Nat.min 12 (length (numeric_columns df)) /\
    1 <= length rows.
Proof.
  intro Hrun. apply analyze_to_pdf_Ok in Hrun as [desc [Hdesc ->]].
  destruct (compute_basic_stats_labels df desc Hdesc) as [Hlab Hne].
  exists (firstn 12 desc).
  assert (Hlen : length desc = length (numeric_columns df))
    by now rewrite <- Hlab, length_map.
  split.
  { unfold report_pages, middle_pages, table_pages.
    destruct desc; [|reflexivity]. simpl in Hlab. congruence. }
  split; [now rewrite <- firstn_map, Hlab|].
  rewrite length_firstn, Hlen. split; [reflexivity|].
  destruct (numeric_columns df); [congruence|simpl; lia].
Qed.

Lemma count_valid_isna_sum (s : Series) :
  count_valid s + isna_sum s = length (values s).
Proof.
  unfold count_valid, isna_sum, dropna.
  induction (values s) as [|v l IH]; simpl; [reflexivity|].
  destruct (isna v); simpl; lia.
Qed.

(** X8: in a frame with distinct labels, every row of the statistics table
    belongs to a numeric-dtype column of the frame, its count is the number
    of non-missing entries of that column, and count and missing add up to
    the number of entries of the column. *)
Theorem X8_count_plus_missing (df : DataFrame) (desc : list StatRow) :
  NoDup (columns df) ->
  compute_basic_stats df = Ok desc ->
  Forall (fun r => exists s m,
              In (row_label r, s) df /\
              is_number (dtype s) = true /\
              row_count r = length (dropna (values s)) /\
              row_missing r = Some m /\
              row_count r + m = length (values s))
         desc.
Proof.
  intros Hnd Hdesc.
  destruct (compute_basic_stats_labels df desc Hdesc) as [_ Hne].
  rewrite compute_basic_stats_Ok in Hdesc.
  - injection Hdesc as <-. apply Forall_forall. intros r Hr.
    unfold stat_rows in Hr. apply in_map_iff in Hr as [[name s] [<- Hin]].
    unfold select_dtypes_number in Hin. apply filter_In in Hin as [Hin Hnum].
    exists s, (isna_sum s). simpl.
    repeat split; try assumption. apply count_valid_isna_sum.
  - assumption.
  - intro E. apply Hne. unfold numeric_columns.
    fold (select_dtypes_number df). now rewrite E.
Qed.

(** X9: in a finished document the first numeric column of the frame has a
    histogram, a box plot and a violin plot, each drawn from its
    non-missing entries, and is one of the series of the line chart. *)
Theorem X9_first_numeric_column (df : DataFrame) (doc : PdfPages) :
  analyze_to_pdf df = Ok doc ->
  exists c rest,
    numeric_columns df = c :: rest /\
    In (Histogram c (dropna (values (column df c))) 30) doc /\
    In (Boxplot c (dropna (values (column df c)))) doc /\
    In (ViolinPlot c (dropna (values (column df c)))) doc /\
    exists cols, In (LineChart cols) doc /\ In c cols.
Proof.
  intro Hrun. apply analyze_to_pdf_Ok in Hrun as [desc [Hdesc ->]].
  destruct (compute_basic_stats_labels df desc Hdesc) as [_ Hne].
  destruct (numeric_columns df) as [|c rest] eqn:Enum; [congruence|].
  exists c, rest. split; [reflexivity|].
  repeat split.
  - apply (report_page_stage df desc 3); [lia|].
    rewrite middle_pages_histograms, Enum. now left.
  - apply (report_page_stage df desc 6); [lia|].
    rewrite middle_pages_boxplots, Enum. now left.
  - apply (report_page_stage df desc 7); [lia|].
    rewrite middle_pages_violins, Enum. now left.
  - exists (firstn 6 (c :: rest)). split; [|now left].
    apply (report_page_stage df desc 10); [lia|].
    rewrite middle_pages_line, Enum. now left.
Qed.

(** X10: in a finished document the correlation heatmap and the scatter
    matrix are present together, exactly when the frame has two numeric
    columns or more; the heatmap then covers every numeric column, the
    scatter matrix the first five. *)
Theorem X10_pairwise_pages (df : DataFrame) (doc : PdfPages) :
  analyze_to_pdf df = Ok doc ->
  (forall cols, In (CorrelationHeatmap cols) doc <->
                2 <= length (numeric_columns df) /\ cols = numeric_columns df) /\
  (forall cols, In (ScatterMatrix cols) doc <->
                2 <= length (numeric_columns df) /\
                cols = firstn 5 (numeric_columns df)).
Proof.
  intro Hrun. apply analyze_to_pdf_Ok in Hrun as [desc [_ ->]].
  split; intro cols.
  - transitivity (In (CorrelationHeatmap cols) (report_pages df desc)
                  /\ stage (CorrelationHeatmap cols) = 5); [simpl; tauto|].
    rewrite (report_page_stage df desc 5) by lia.
    rewrite middle_pages_heatmap. unfold heatmap_pages.
    destruct (Nat.ltb_spec (length (numeric_columns df)) 2); simpl.
    + split; [tauto|]. intros [H2 _]. lia.
    + split.
      * intros [Heq|[]]. injection Heq as <-. now split.
      * intros [_ ->]. now left.
  - transitivity (In (ScatterMatrix cols) (report_pages df desc)
                  /\ stage (ScatterMatrix cols) = 9); [simpl; tauto|].
    rewrite (report_page_stage df desc 9) by lia.
    rewrite middle_pages_scatter. unfold scatter_pages.
    rewrite length_firstn.
    destruct (Nat.ltb_spec 1 (Nat.min 5 (length (numeric_columns df))));
      simpl.
    + split.
      * intros [Heq|[]]. injection Heq as <-. split; [lia|reflexivity].
      * intros [_ ->]. now left.
    + split; [tauto|]. intros [H2 _]. lia.
Qed.

(** * Which pages a finished document holds for a column *)

Lemma doc_histogram (df : DataFrame) (desc : list StatRow) (c : string)
    (d : list value) (b : Z) :
  In (Histogram c d b) (report_pages df desc) <->
  In c (firstn 12 (numeric_columns df)) /\
  d = dropna (values (column df c)) /\ b = 30%Z.
Proof.
  transitivity (In (Histogram c d b) (report_pages df desc)
                /\ stage (Histogram c d b) = 3); [simpl; tauto|].
  rewrite (report_page_stage df desc 3) by lia.
  rewrite middle_pages_histograms. unfold histogram_pages.
  rewrite in_map_iff. split.
  - intros [c' [Heq Hin]]. injection Heq as -> <- <-. tauto.
  - intros [Hin [-> ->]]. now exists c.
Qed.

Lemma doc_boxplot (df : DataFrame) (desc : list StatRow) (c : string)
    (d : list value) :
  In (Boxplot c d) (report_pages df desc) <->
  In c (firstn 8 (numeric_columns df)) /\ d = dropna (values (column df c)).
Proof.
  transitivity (In (Boxplot c d) (report_pages df desc)
                /\ stage (Boxplot c d) = 6); [simpl; tauto|].
  rewrite (report_page_stage df desc 6) by lia.
  rewrite middle_pages_boxplots. unfold boxplot_pages.
  rewrite in_map_iff. split.
  - intros [c' [Heq Hin]]. injection Heq as -> <-. tauto.
  - intros [Hin ->]. now exists c.
Qed.

Lemma doc_violin (df : DataFrame) (desc : list StatRow) (c : string)
    (d : list value) :
  In (ViolinPlot c d) (report_pages df desc) <->
  In c (firstn 6 (numeric_columns df)) /\ d = dropna (values (column df c)).
Proof.
  transitivity (In (ViolinPlot c d) (report_pages df desc)
                /\ stage (ViolinPlot c d) = 7); [simpl; tauto|].
  rewrite (report_page_stage df desc 7) by lia.
  rewrite middle_pages_violins. unfold violin_pages.
  rewrite in_map_iff. split.
  - intros [c' [Heq Hin]]. injection Heq as -> <-. tauto.
  - intros [Hin ->]. now exists c.
Qed.

Lemma doc_density (df : DataFrame) (desc : list StatRow) (c : string)
    (d : list value) :
  In (DensityPlot c d) (report_pages df desc) <->
  In c (firstn 8 (numeric_columns df)) /\
  d = dropna (values (column df c)) /\ d <> [].
Proof.
  transitivity (In (DensityPlot c d) (report_pages df desc)
                /\ stage (DensityPlot c d) = 8); [simpl; tauto|].
  rewrite (report_page_stage df desc 8) by lia.
  rewrite middle_pages_densities. unfold density_pages.
  rewrite in_flat_map. split.
  - intros [c' [Hin Hp]].
    destruct (dropna (values (column df c'))) as [|v l] eqn:E;
      simpl in Hp; [tauto|].
    destruct Hp as [Heq|[]]. injection Heq as -> <-.
    rewrite E. repeat split; [assumption|discriminate].
  - intros [Hin [-> Hne]]. exists c. split; [assumption|].
    destruct (dropna (values (column df c))); [congruence|now left].
Qed.

Lemma doc_bar (df : DataFrame) (desc : list StatRow) (c : string)
    (k : list (value * nat)) :
  In (CategoricalBar c k) (report_pages df desc) <->
  In c (firstn 8 (detect_categoricals df 20)) /\
  k = firstn 15 (value_counts (astype_str (column df c))).
Proof.
  transitivity (In (CategoricalBar c k) (report_pages df desc)
                /\ stage (CategoricalBar c k) = 4); [simpl; tauto|].
  rewrite (report_page_stage df desc 4) by lia.
  rewrite middle_pages_bars. unfold categorical_bar_pages.
  rewrite in_map_iff. split.
  - intros [c' [Heq Hin]]. injection Heq as -> <-. tauto.
  - intros [Hin ->]. now exists c.
Qed.

Lemma doc_pie (df : DataFrame) (desc : list StatRow) (c : string)
    (k : list (value * nat)) :
  In (PieChart c k) (report_pages df desc) <->
  In c (firstn 4 (detect_categoricals df 20)) /\
  k = firstn 6 (value_counts (astype_str (column df c))).
Proof.
  transitivity (In (PieChart c k) (report_pages df desc)
                /\ stage (PieChart c k) = 11); [simpl; tauto|].
  rewrite (report_page_stage df desc 11) by lia.
  rewrite middle_pages_pies. unfold pie_pages.
  rewrite in_map_iff. split.
  - intros [c' [Heq Hin]]. injection Heq as -> <-. tauto.
  - intros [Hin ->]. now exists c.
Qed.

Lemma firstn_incl {A : Type} (n : nat) (l : list A) (x : A) :
  In x (firstn n l) -> In x l.
Proof.
  intro H. rewrite <- (firstn_skipn n l). apply in_or_app. now left.
Qed.

Lemma firstn_In_le {A : Type} (n m : nat) (l : list A) (x : A) :
  n <= m -> In x (firstn n l) -> In x (firstn m l).
Proof.
  intros Hle Hin. replace n with (Nat.min n m) in Hin by lia.
  rewrite <- firstn_firstn in Hin. now apply firstn_incl in Hin.
Qed.

(** X11: in a finished document the histogram, box plot, violin plot and
    density pages of a column are drawn from the column's non-missing
    entries only, so no NaN is among their data, and a density page never
    has empty data; the labels of every bar and pie page are strings. *)
Theorem X11_no_missing_in_charts (df : DataFrame) (doc : PdfPages) :
  analyze_to_pdf df = Ok doc ->
  Forall (fun p =>
            (forall col data, chart_data p = Some (col, data) ->
               data = dropna (values (column df col)) /\ ~ In NaN data) /\
            (forall col data, p = DensityPlot col data -> data <> []) /\
            (forall col counts, chart_counts p = Some (col, counts) ->
               Forall (fun e => exists t, fst e = VStr t) counts))
         doc.
Proof.
  intro Hrun. apply analyze_to_pdf_Ok in Hrun as [desc [_ ->]].
  apply Forall_forall. intros p Hin. split; [|split].
  - intros col data Hp.
    assert (Hd : data = dropna (values (column df col))).
    { destruct p; simpl in Hp; try discriminate; injection Hp as -> ->.
      + now apply doc_histogram in Hin.
      + now apply doc_boxplot in Hin.
      + now apply doc_violin in Hin.
      + now apply doc_density in Hin. }
    split; [assumption|]. rewrite Hd. apply dropna_no_NaN.
  - intros col data ->. now apply doc_density in Hin.
  - intros col counts Hp.
    assert (Hk : exists n,
               counts = firstn n (value_counts (astype_str (column df col)))).
    { destruct p; simpl in Hp; try discriminate; injection Hp as -> ->.
      + apply doc_bar in Hin. now exists 15.
      + apply doc_pie in Hin. now exists 6. }
    destruct Hk as [n ->]. apply Forall_forall. intros [v m] He.
    apply firstn_incl in He. apply value_counts_In in He as [Hv _].
    rewrite astype_str_dropna in Hv. unfold astype_str in Hv. simpl in Hv.
    apply in_map_iff in Hv as [v' [<- _]]. simpl. now eexists.
Qed.

(** X12: in a finished document every column with a pie chart also has a
    categorical bar chart, and the slices of the pie are the first six
    bars of that chart. *)
Theorem X12_pie_within_bars (df : DataFrame) (doc : PdfPages) :
  analyze_to_pdf df = Ok doc ->
  forall col slices, In (PieChart col slices) doc ->
    exists bars, In (CategoricalBar col bars) doc /\ slices = firstn 6 bars.
Proof.
  intro Hrun. apply analyze_to_pdf_Ok in Hrun as [desc [_ ->]].
  intros col slices Hin. apply doc_pie in Hin as [Hsel ->].
  exists (firstn 15 (value_counts (astype_str (column df col)))). split.
  - apply doc_bar. split; [|reflexivity].
    now apply (firstn_In_le 4 8); [lia|].
  - now rewrite firstn_firstn.
Qed.

(** X13: in a finished document the per-column pages are nested: a column
    with a violin plot or a density plot has a box plot drawn from the same
    data, a column with a box plot has a histogram drawn from the same
    data, and every series of the scatter matrix and of the line chart has
    a violin plot. *)
Theorem X13_numeric_pages_nested (df : DataFrame) (doc : PdfPages) :
  analyze_to_pdf df = Ok doc ->
  (forall col data, In (ViolinPlot col data) doc -> In (Boxplot col data) doc) /\
  (forall col data, In (DensityPlot col data) doc -> In (Boxplot col data) doc) /\
  (forall col data, In (Boxplot col data) doc -> In (Histogram col data 30) doc) /\
  (forall cols col, In (ScatterMatrix cols) doc -> In col cols ->
     exists data, In (ViolinPlot col data) doc) /\
  (forall cols col, In (LineChart cols) doc -> In col cols ->
     exists data, In (ViolinPlot col data) doc).
Proof.
  intro Hrun.
  apply analyze_to_pdf_Ok in Hrun as [desc [_ ->]].
  repeat split.
  - intros col data Hin. apply doc_violin in Hin as [Hsel ->].
    apply doc_boxplot. split; [|reflexivity].
    now apply (firstn_In_le 6 8); [lia|].
  - intros col data Hin. apply doc_density in Hin as [Hsel [-> _]].
    apply doc_boxplot. now split.
  - intros col data Hin. apply doc_boxplot in Hin as [Hsel ->].
    apply doc_histogram. split; [|now split].
    now apply (firstn_In_le 8 12); [lia|].
  - intros cols col Hin Hcol.
    assert (Hst : In (ScatterMatrix cols)
                     (pages_of_stage 9 (middle_pages df desc)))
      by (apply report_page_stage; [lia|now split]).
    rewrite middle_pages_scatter in Hst. unfold scatter_pages in Hst.
    destruct (1 <? _)%nat; simpl in Hst; [|tauto].
    destruct Hst as [Heq|[]]. injection Heq as <-.
    eexists. apply doc_violin. split; [|reflexivity].
    now apply (firstn_In_le 5 6); [lia|].
  - intros cols col Hin Hcol.
    assert (Hst : In (LineChart cols)
                     (pages_of_stage 10 (middle_pages df desc)))
      by (apply report_page_stage; [lia|now split]).
    rewrite middle_pages_line in Hst. unfold line_pages in Hst.
    destruct (firstn 6 (numeric_columns df)) eqn:E; simpl in Hst; [tauto|].
    destruct Hst as [Heq|[]]. injection Heq as <-.
    eexists. apply doc_violin. split; [|reflexivity]. now rewrite E.
Qed.

(** * More on the classifier *)

Lemma filter_monotone {A : Type} (P Q : A -> bool) (l : list A) :
  (forall x, P x = true -> Q x = true) ->
  incl (filter P l) (filter Q l).
Proof.
  intros H x Hx. apply filter_In in Hx as [Hin HP].
  apply filter_In. split; [assumption|now apply H].
Qed.

Lemma is_categorical_monotone (mu mu' : Z) (s : Series) :
  (mu <= mu')%Z -> is_categorical mu s = true -> is_categorical mu' s = true.
Proof.
  clear float_repr renders.
  intro Hle. rewrite !is_categorical_iff. intros [H|H]; [now left|right; lia].
Qed.

(** X14: in a frame with distinct labels the detected categorical columns
    are labels of the frame, without repetition; they include every
    object-dtype column whatever the threshold, negative ones included;
    and raising the threshold never removes a column. *)
Theorem X14_threshold_monotone (df : DataFrame) (mu mu' : Z) :
  NoDup (columns df) -> (mu <= mu')%Z ->
  incl (columns (select_dtypes_object df)) (detect_categoricals df mu) /\
  incl (detect_categoricals df mu) (detect_categoricals df mu') /\
  incl (detect_categoricals df mu') (columns df) /\
  NoDup (detect_categoricals df mu).
Proof.
  intros Hnd Hle. rewrite !detect_categoricals_columns by assumption.
  unfold categorical_columns, columns, select_dtypes_object.
  repeat split.
  - apply incl_map. apply filter_monotone. intros [n s]. simpl.
    unfold is_categorical.
    destruct (Dtype_eq_dec (dtype s) Object) as [E|E]; [reflexivity|].
    destruct (dtype s); simpl; congruence.
  - apply incl_map. apply filter_monotone. intros [n s]. simpl.
    now apply is_categorical_monotone.
  - apply incl_map. apply incl_filter.
  - now apply NoDup_filter_columns.
Qed.

Lemma getitem_unique (df : DataFrame) (name : string) (s s' : Series) :
  NoDup (columns df) -> In (name, s) df -> In (name, s') df -> s = s'.
Proof.
  intros Hnd H H'. apply (getitem_In df name s Hnd) in H.
  apply (getitem_In df name s' Hnd) in H'. congruence.
Qed.

Lemma nunique_boolean (s : Series) :
  Forall (fun v => exists b, v = VBool b) (values s) -> nunique s <= 2.
Proof.
  intro Hb. unfold nunique.
  apply (NoDup_incl_length (l' := [VBool true; VBool false]));
    [apply unique_NoDup|].
  intros v Hv. apply unique_In in Hv. unfold dropna in Hv.
  apply filter_In in Hv as [Hv _].
  rewrite Forall_forall in Hb. destruct (Hb v Hv) as [[|] ->]; simpl; tauto.
Qed.

(** X15: in a frame with distinct labels a boolean column is detected as
    categorical with the default threshold and is not a numeric column: it
    has no row in the statistics table. *)
Theorem X15_boolean_column (df : DataFrame) (name : string) (s : Series) :
  NoDup (columns df) -> In (name, s) df ->
  dtype s = Boolean ->
  Forall (fun v => exists b, v = VBool b) (values s) ->
  In name (detect_categoricals df 20) /\
  ~ In name (numeric_columns df) /\
  forall desc, compute_basic_stats df = Ok desc ->
               ~ In name (map row_label desc).
Proof.
  intros Hnd Hin Hdt Hb.
  assert (Hnot : ~ In name (numeric_columns df)).
  { intro H. apply numeric_columns_In in H as [s' [Hin' Hnum]].
    rewrite (getitem_unique df name s' s Hnd Hin' Hin), Hdt in Hnum.
    discriminate. }
  split; [|split; [exact Hnot|]].
  - apply (detect_categoricals_In df 20 name s Hnd Hin).
    apply is_categorical_iff. right.
    pose proof (nunique_boolean s Hb). lia.
  - intros desc Hdesc.
    destruct (compute_basic_stats_labels df desc Hdesc) as [-> _].
    exact Hnot.
Qed.

Lemma all_missing_repeat (l : list value) :
  Forall (fun v => v = NaN) l -> l = repeat NaN (length l).
Proof.
  induction 1 as [|v l Hv Hl IH]; simpl; [reflexivity|]. now rewrite Hv, <- IH.
Qed.

Lemma unique_repeat {A : Type} (dec : forall a b : A, {a = b} + {a <> b})
    (x : A) (n : nat) :
  unique dec (repeat x (S n)) = [x].
Proof.
  induction n as [|n IH].
  - reflexivity.
  - change (repeat x (S (S n))) with (x :: repeat x (S n)).
    cbn [unique]. rewrite IH. simpl.
    destruct (dec x x); [reflexivity|congruence].
Qed.

Lemma count_occ_repeat {A : Type} (dec : forall a b : A, {a = b} + {a <> b})
    (x : A) (n : nat) :
  count_occ dec (repeat x n) x = n.
Proof.
  induction n as [|n IH]; simpl; [reflexivity|].
  destruct (dec x x); [now rewrite IH|congruence].
Qed.

(** X16: in a frame with distinct labels a column whose entries are all
    missing is detected as categorical with the default threshold,
    whatever its dtype, and when it has entries its frequency count after
    [astype(str)] is the single label "nan" with the number of entries of
    the column: its bar chart is one bar as tall as the frame. *)
Theorem X16_all_missing_column (df : DataFrame) (name : string) (s : Series) :
  NoDup (columns df) -> In (name, s) df ->
  Forall (fun v => v = NaN) (values s) ->
  nunique s = 0 /\
  In name (detect_categoricals df 20) /\
  value_counts (astype_str s)
  = match values s with
    | [] => []
    | _ => [(VStr "nan", length (values s))]
    end.
Proof.
  intros Hnd Hin Hall.
  pose proof (all_missing_repeat _ Hall) as Hrep.
  assert (Hdrop : dropna (values s) = []).
  { rewrite Hrep. generalize (length (values s)). intro n.
    induction n; simpl; [reflexivity|assumption]. }
  assert (Hnu : nunique s = 0) by (unfold nunique; now rewrite Hdrop).
  split; [exact Hnu|]. split.
  - apply (detect_categoricals_In df 20 name s Hnd Hin).
    apply is_categorical_iff. right. lia.
  - unfold value_counts. rewrite astype_str_dropna.
    unfold astype_str. simpl values. rewrite Hrep.
    rewrite repeat_length. generalize (length (values s)). intro n.
    rewrite map_repeat. simpl str.
    destruct n as [|n]; [reflexivity|].
    rewrite unique_repeat. simpl map. rewrite count_occ_repeat.
    reflexivity.
Qed.

End Pipeline.

(** * Concrete runs *)

Ltac distinct_labels :=
  repeat (constructor; [simpl; intuition discriminate|]); constructor.

Lemma C1_page_order_sample :
  analyze_to_pdf sample_float_repr always_renders sample_df
  = Ok (report_pages sample_float_repr sample_df (stat_rows sample_df)) /\
  exists desc body middle,
    compute_basic_stats sample_df = Ok desc /\
    report_pages sample_float_repr sample_df (stat_rows sample_df)
    = TextPage "Dataset Summary" body
      :: middle ++ [TextPage "Notes" notes_text] /\
    Forall (fun p => 1 <= stage p) middle /\
    in_stage_order middle /\
    pages_of_stage 1 middle
    = match desc with
      | [] => []
      | _ => [TablePage "Descriptive Statistics (Numeric)" (firstn 12 desc)]
      end /\
    length (pages_of_stage 2 middle) = 1.
Proof.
  split; [reflexivity|].
  apply (C1_page_order sample_float_repr always_renders sample_df).
  reflexivity.
Defined.

Lemma C2_classifier_sample :
  NoDup (columns sample_df) /\
  In ("score", mkSeries Float64 [VFloat 1; NaN; NaN; VFloat 2]) sample_df /\
  (In "score" (detect_categoricals sample_df 2) <->
   Float64 = Object \/ (Z.of_nat 2 <= 2)%Z) /\
  (Z.of_nat 2 = 2%Z -> In "score" (detect_categoricals sample_df 2)) /\
  (exists lbl, In ("score", lbl) (classification sample_df 2) /\
     forall lbl', In ("score", lbl') (classification sample_df 2) -> lbl' = lbl) /\
  (In ("score", Categorical) (classification sample_df 2) <->
   Float64 = Object \/ (Z.of_nat 2 <= 2)%Z) /\
  (In ("score", Numeric) (classification sample_df 2) <->
   Float64 <> Object /\ (2 < Z.of_nat 2)%Z).
Proof.
  split; [distinct_labels|]. split; [simpl; tauto|].
  apply (C2_classifier sample_df 2 "score"
           (mkSeries Float64 [VFloat 1; NaN; NaN; VFloat 2])).
  - distinct_labels.
  - simpl; tauto.
Defined.

Lemma C3_stats_rows_sample :
  NoDup (columns sample_df) /\
  match compute_basic_stats sample_df with
  | Ok desc =>
      map row_label desc = numeric_columns sample_df /\
      NoDup (map row_label desc) /\
      (forall name s, In (name, s) sample_df -> is_number (dtype s) = true ->
         exists r, In r desc /\ row_label r = name /\
                   row_missing r = Some (length (filter isna (values s)))) /\
      (forall r, In r desc ->
         exists s, In (row_label r, s) sample_df /\
                   is_number (dtype s) = true /\
                   row_missing r = Some (length (filter isna (values s))))
  | Raise _ => numeric_columns sample_df = []
  end.
Proof.
  split; [distinct_labels|].
  apply (C3_stats_rows sample_df). distinct_labels.
Defined.

Lemma C7_first_k_sample :
  NoDup (columns wide_df) /\
  let num := map fst (filter (fun c => is_number (dtype (snd c))) wide_df) in
  let cat := map fst (filter (fun c => is_categorical 20 (snd c)) wide_df) in
  charts always_renders (plot_histograms always_renders wide_df 30 12)
         (firstn 12 num) /\
  charts always_renders
         (plot_categorical_bars sample_float_repr always_renders wide_df 15 8)
         (firstn 8 cat) /\
  charts always_renders (plot_boxplots always_renders wide_df 8)
         (firstn 8 num) /\
  charts always_renders (plot_violinplots always_renders wide_df 6)
         (firstn 6 num) /\
  charts always_renders (plot_density_plots always_renders wide_df 8)
         (filter (has_data wide_df) (firstn 8 num)) /\
  charts always_renders (plot_scatter_matrix always_renders wide_df 5)
         (if (1 <? length (firstn 5 num))%nat then firstn 5 num else []) /\
  charts always_renders (plot_line_charts always_renders wide_df 6)
         (firstn 6 num) /\
  charts always_renders
         (plot_pie_charts sample_float_repr always_renders wide_df 4)
         (firstn 4 cat).
Proof.
  split; [distinct_labels|].
  apply (C7_first_k_in_frame_order sample_float_repr always_renders wide_df).
  distinct_labels.
Defined.

Lemma C8_table_page_truncated_wide :
  NoDup (columns wide_df) /\
  12 < length (numeric_columns wide_df) /\
  analyze_to_pdf sample_float_repr always_renders wide_df
  = Ok (report_pages sample_float_repr wide_df (stat_rows wide_df)) /\
  exists desc,
    compute_basic_stats wide_df = Ok desc /\
    map row_label desc = numeric_columns wide_df /\
    nth_error (report_pages sample_float_repr wide_df (stat_rows wide_df)) 1
    = Some (TablePage "Descriptive Statistics (Numeric)" (firstn 12 desc)) /\
    (forall title rows,
       In (TablePage title rows)
          (report_pages sample_float_repr wide_df (stat_rows wide_df)) ->
       rows = firstn 12 desc /\
       map row_label rows = firstn 12 (numeric_columns wide_df) /\
       length rows = 12) /\
    (forall name, In name (skipn 12 (numeric_columns wide_df)) ->
       In name (map row_label desc) /\
       forall title rows,
         In (TablePage title rows)
            (report_pages sample_float_repr wide_df (stat_rows wide_df)) ->
         ~ In name (map row_label rows)).
Proof.
  split; [distinct_labels|]. split; [simpl; lia|].
  split; [vm_compute; reflexivity|].
  apply (C8_table_page_truncated sample_float_repr always_renders wide_df).
  - distinct_labels.
  - simpl; lia.
  - vm_compute; reflexivity.
Defined.

(** The fifth of five numeric columns with two distinct values each gets
    no pie chart, although the report is produced: the pie generator takes
    four columns. *)
Lemma C9_fifth_column_has_no_pie :
  NoDup (columns five_flags_df) /\
  In ("e", flag) five_flags_df /\
  is_number (dtype flag) = true /\
  nunique flag <= 20 /\
  exists doc,
    analyze_to_pdf sample_float_repr always_renders five_flags_df = Ok doc /\
    forall counts, ~ In (PieChart "e" counts) doc.
Proof.
  split; [distinct_labels|]. split; [simpl; tauto|].
  split; [reflexivity|]. split; [vm_compute; lia|].
  eexists. split; [vm_compute; reflexivity|].
  intros counts Hin. simpl in Hin.
  repeat (destruct Hin as [Hin|Hin]; [discriminate|]).
  exact Hin.
Qed.

Lemma C9_eligible_on_both_sides_sample :
  NoDup (columns sample_df) /\
  In ("age", mkSeries Int64 [VInt 30; VInt 41; VInt 30; VInt 25]) sample_df /\
  is_number Int64 = true /\
  nunique (mkSeries Int64 [VInt 30; VInt 41; VInt 30; VInt 25]) <= 20 /\
  let s := mkSeries Int64 [VInt 30; VInt 41; VInt 30; VInt 25] in
  let num := numeric_columns sample_df in
  let cat := detect_categoricals sample_df 20 in
  In "age" num /\ In "age" cat /\
  forall doc,
    analyze_to_pdf sample_float_repr always_renders sample_df = Ok doc ->
    (In "age" (firstn 12 num) -> In (Histogram "age" (dropna (values s)) 30) doc) /\
    (In "age" (firstn 8 cat) ->
     In (CategoricalBar "age"
           (slice_to 15 (value_counts (astype_str sample_float_repr s)))) doc) /\
    (In "age" (firstn 8 num) -> In (Boxplot "age" (dropna (values s))) doc) /\
    (In "age" (firstn 6 num) -> In (ViolinPlot "age" (dropna (values s))) doc) /\
    (In "age" (firstn 8 num) -> dropna (values s) <> [] ->
     In (DensityPlot "age" (dropna (values s))) doc) /\
    (In "age" (firstn 5 num) -> 1 < length (firstn 5 num) ->
     In (ScatterMatrix (firstn 5 num)) doc) /\
    (In "age" (firstn 6 num) -> In (LineChart (firstn 6 num)) doc) /\
    (In "age" (firstn 4 cat) ->
     In (PieChart "age"
           (slice_to 6 (value_counts (astype_str sample_float_repr s)))) doc).
Proof.
  split; [distinct_labels|]. split; [simpl; tauto|].
  split; [reflexivity|]. split; [vm_compute; lia|].
  apply (C9_eligible_on_both_sides sample_float_repr always_renders
           sample_df "age").
  - distinct_labels.
  - simpl; tauto.
  - reflexivity.
  - vm_compute; lia.
Defined.

Lemma C10_missing_tallied_as_nan_sample :
  In NaN (values (column sample_df "city")) /\
  let s := column sample_df "city" in
  let counts := value_counts (astype_str sample_float_repr s) in
  (forall v, In v (values (astype_str sample_float_repr s)) ->
             exists t, v = VStr t) /\
  exists n,
    In (VStr "nan", n) counts /\
    1 <= isna_sum s /\ isna_sum s <= n /\
    (forall pdf pdf' u,
       In "city" (slice_to 8 (detect_categoricals sample_df 20)) ->
       plot_categorical_bars sample_float_repr always_renders sample_df 15 8 pdf
       = Ok (u, pdf') ->
       In (CategoricalBar "city" (slice_to 15 counts)) pdf' /\
       (length counts <= 15 -> In (VStr "nan", n) (slice_to 15 counts))) /\
    (forall pdf pdf' u,
       In "city" (slice_to 4 (detect_categoricals sample_df 20)) ->
       plot_pie_charts sample_float_repr always_renders sample_df 4 pdf
       = Ok (u, pdf') ->
       In (PieChart "city" (slice_to 6 counts)) pdf' /\
       (length counts <= 6 -> In (VStr "nan", n) (slice_to 6 counts))).
Proof.
  split; [simpl; tauto|].
  apply (C10_missing_tallied_as_nan sample_float_repr always_renders
           sample_df "city").
  simpl; tauto.
Defined.

(** ** Runs for the further properties *)

Local Abbreviation sample_doc :=
  (report_pages sample_float_repr sample_df (stat_rows sample_df)).

Local Abbreviation sample_run :=
  (analyze_to_pdf sample_float_repr always_renders sample_df).

Lemma X1_missingness_bars_sample :
  plot_missingness always_renders sample_df []
  = Ok (tt, [MissingnessBar [("score", 2); ("city", 1); ("age", 0)]]) /\
  exists bars,
    [MissingnessBar [("score", 2); ("city", 1); ("age", 0)]]
    = [] ++ [MissingnessBar bars] /\
    Permutation bars (isna_sum_frame sample_df) /\
    descending bars.
Proof.
  split; [reflexivity|].
  apply (X1_missingness_bars always_renders sample_df [] _ tt).
  reflexivity.
Defined.

Lemma X4_summary_figures_sample :
  sample_run = Ok sample_doc /\
  exists rows cols numeric object missing bars desc,
    hd_error sample_doc
    = Some (TextPage "Dataset Summary"
              (SummaryText rows cols numeric object missing)) /\
    In (MissingnessBar bars) sample_doc /\
    compute_basic_stats sample_df = Ok desc /\
    numeric = length desc /\ 1 <= numeric /\
    cols = length bars /\
    missing = total bars /\
    numeric + object <= cols.
Proof.
  split; [reflexivity|].
  apply (X4_summary_figures sample_float_repr always_renders sample_df).
  reflexivity.
Defined.

Lemma X5_page_count_sample :
  sample_run = Ok sample_doc /\ 8 <= length sample_doc <= 53.
Proof.
  split; [reflexivity|].
  apply (X5_page_count sample_float_repr always_renders sample_df).
  reflexivity.
Defined.

Lemma X7_table_is_second_page_sample :
  sample_run = Ok sample_doc /\
  exists rows,
    nth_error sample_doc 1
    = Some (TablePage "Descriptive Statistics (Numeric)" rows) /\
    map row_label rows = firstn 12 (numeric_columns sample_df) /\
    length rows = Nat.min 12 (length (numeric_columns sample_df)) /\
    1 <= length rows.
Proof.
  split; [reflexivity|].
  apply (X7_table_is_second_page sample_float_repr always_renders sample_df).
  reflexivity.
Defined.

Lemma X8_count_plus_missing_sample :
  NoDup (columns sample_df) /\
  compute_basic_stats sample_df = Ok (stat_rows sample_df) /\
  Forall (fun r => exists s m,
              In (row_label r, s) sample_df /\
              is_number (dtype s) = true /\
              row_count r = length (dropna (values s)) /\
              row_missing r = Some m /\
              row_count r + m = length (values s))
         (stat_rows sample_df).
Proof.
  split; [distinct_labels|]. split; [reflexivity|].
  apply (X8_count_plus_missing sample_df).
  - distinct_labels.
  - reflexivity.
Defined.

Lemma X9_first_numeric_column_sample :
  sample_run = Ok sample_doc /\
  exists c rest,
    numeric_columns sample_df = c :: rest /\
    In (Histogram c (dropna (values (column sample_df c))) 30) sample_doc /\
    In (Boxplot c (dropna (values (column sample_df c)))) sample_doc /\
    In (ViolinPlot c (dropna (values (column sample_df c)))) sample_doc /\
    exists cols, In (LineChart cols) sample_doc /\ In c cols.
Proof.
  split; [reflexivity|].
  apply (X9_first_numeric_column sample_float_repr always_renders sample_df).
  reflexivity.
Defined.

Lemma X10_pairwise_pages_sample :
  sample_run = Ok sample_doc /\
  (forall cols, In (CorrelationHeatmap cols) sample_doc <->
                2 <= length (numeric_columns sample_df) /\
                cols = numeric_columns sample_df) /\
  (forall cols, In (ScatterMatrix cols) sample_doc <->
                2 <= length (numeric_columns sample_df) /\
                cols = firstn 5 (numeric_columns sample_df)).
Proof.
  split; [reflexivity|].
  apply (X10_pairwise_pages sample_float_repr always_renders sample_df).
  reflexivity.
Defined.

Lemma X11_no_missing_in_charts_sample :
  sample_run = Ok sample_doc /\
  Forall (fun p =>
            (forall col data, chart_data p = Some (col, data) ->
               data = dropna (values (column sample_df col)) /\
               ~ In NaN data) /\
            (forall col data, p = DensityPlot col data -> data <> []) /\
            (forall col counts, chart_counts p = Some (col, counts) ->
               Forall (fun e => exists t, fst e = VStr t) counts))
         sample_doc.
Proof.
  split; [reflexivity|].
  apply (X11_no_missing_in_charts sample_float_repr always_renders sample_df).
  reflexivity.
Defined.

Lemma X12_pie_within_bars_sample :
  sample_run = Ok sample_doc /\
  forall col slices, In (PieChart col slices) sample_doc ->
    exists bars,
      In (CategoricalBar col bars) sample_doc /\ slices = firstn 6 bars.
Proof.
  split; [reflexivity|].
  apply (X12_pie_within_bars sample_float_repr always_renders sample_df).
  reflexivity.
Defined.

Lemma X13_numeric_pages_nested_sample :
  sample_run = Ok sample_doc /\
  (forall col data, In (ViolinPlot col data) sample_doc ->
                    In (Boxplot col data) sample_doc) /\
  (forall col data, In (DensityPlot col data) sample_doc ->
                    In (Boxplot col data) sample_doc) /\
  (forall col data, In (Boxplot col data) sample_doc ->
                    In (Histogram col data 30) sample_doc) /\
  (forall cols col, In (ScatterMatrix cols) sample_doc -> In col cols ->
     exists data, In (ViolinPlot col data) sample_doc) /\
  (forall cols col, In (LineChart cols) sample_doc -> In col cols ->
     exists data, In (ViolinPlot col data) sample_doc).
Proof.
  split; [reflexivity|].
  apply (X13_numeric_pages_nested sample_float_repr always_renders sample_df).
  reflexivity.
Defined.

Lemma X14_threshold_monotone_sample :
  NoDup (columns sample_df) /\ (2 <= 20)%Z /\
  incl (columns (select_dtypes_object sample_df))
       (detect_categoricals sample_df 2) /\
  incl (detect_categoricals sample_df 2) (detect_categoricals sample_df 20) /\
  incl (detect_categoricals sample_df 20) (columns sample_df) /\
  NoDup (detect_categoricals sample_df 2).
Proof.
  split; [distinct_labels|]. split; [lia|].
  apply (X14_threshold_monotone sample_df 2 20).
  - distinct_labels.
  - lia.
Defined.

Lemma X15_boolean_column_sample :
  NoDup (columns flags_df) /\
  In ("ok", mkSeries Boolean [VBool true; VBool false; VBool true]) flags_df /\
  Boolean = Boolean /\
  Forall (fun v => exists b, v = VBool b) [VBool true; VBool false; VBool true] /\
  In "ok" (detect_categoricals flags_df 20) /\
  ~ In "ok" (numeric_columns flags_df) /\
  forall desc, compute_basic_stats flags_df = Ok desc ->
               ~ In "ok" (map row_label desc).
Proof.
  assert (Hb : Forall (fun v => exists b, v = VBool b)
                      [VBool true; VBool false; VBool true])
    by (repeat constructor; eexists; reflexivity).
  split; [distinct_labels|]. split; [simpl; tauto|].
  split; [reflexivity|]. split; [exact Hb|].
  apply (X15_boolean_column flags_df "ok"
           (mkSeries Boolean [VBool true; VBool false; VBool true])).
  - distinct_labels.
  - simpl; tauto.
  - reflexivity.
  - exact Hb.
Defined.

Lemma X16_all_missing_column_sample :
  NoDup (columns gap_df) /\
  In ("note", mkSeries Float64 [NaN; NaN; NaN]) gap_df /\
  Forall (fun v => v = NaN) [NaN; NaN; NaN] /\
  nunique (mkSeries Float64 [NaN; NaN; NaN]) = 0 /\
  In "note" (detect_categoricals gap_df 20) /\
  value_counts (astype_str sample_float_repr (mkSeries Float64 [NaN; NaN; NaN]))
  = [(VStr "nan", 3)].
Proof.
  split; [distinct_labels|]. split; [simpl; tauto|].
  split; [repeat constructor|].
  apply (X16_all_missing_column sample_float_repr gap_df "note"
           (mkSeries Float64 [NaN; NaN; NaN])).
  - distinct_labels.
  - simpl; tauto.
  - repeat constructor.
Defined.
